(** * quetz: the HTTP handlers of [quetz/main.py]

    A shallow embedding of the request handlers of the package-channel
    server, and the properties its specification states about them.

    Handlers mutate three things: the request's session dictionary, the
    database behind the [Dao], and the files under [static/channels].  They
    are modelled in a state-and-exception monad over a [State] record that
    holds the three, together with a trace of the calls that leave the
    process (identity provider, indexing subprocess). *)

From stdpp Require Import gmap strings list fin_maps.
From Stdlib Require Import ZArith Ascii String Strings.Byte.

Set Warnings "-register-all".

Open Scope string_scope.
Open Scope Z_scope.

(** ** Values decoded from JSON *)

Inductive JSON :=
  | JNull
  | JBool (b : bool)
  | JNum (n : Z)
  | JStr (s : string)
  | JArr (items : list JSON)
  | JObj (fields : list (string * JSON)).

Fixpoint json_eqb (a b : JSON) {struct a} : bool :=
  match a, b with
  | JNull, JNull => true
  | JBool x, JBool y => Bool.eqb x y
  | JNum x, JNum y => Z.eqb x y
  | JStr x, JStr y => String.eqb x y
  | JArr xs, JArr ys =>
      (fix items (xs ys : list JSON) {struct xs} : bool :=
         match xs, ys with
         | [], [] => true
         | x :: xs', y :: ys' => json_eqb x y && items xs' ys'
         | _, _ => false
         end) xs ys
  | JObj xs, JObj ys =>
      (fix fields (xs ys : list (string * JSON)) {struct xs} : bool :=
         match xs, ys with
         | [], [] => true
         | (k, x) :: xs', (l, y) :: ys' =>
             String.eqb k l && json_eqb x y && fields xs' ys'
         | _, _ => false
         end) xs ys
  | _, _ => false
  end.

(** ** Results of a handler *)

Inductive Exception :=
  | ReadError
  | KeyError (key : string)
  | JSONDecodeError
  | AttributeError
  | TypeError
  | IndexError
  | ValueError
  | FileNotFoundError.

(** A call returns, raises [HTTPException] (which the framework turns into
    the response of that status), or raises something else, which no handler
    of [main.py] catches. *)
Inductive Outcome (A : Type) :=
  | Return (a : A)
  | HTTPException (status_code : Z) (detail : option string)
  | Raised (e : Exception).
Arguments Return {A} a.
Arguments HTTPException {A} status_code detail.
Arguments Raised {A} e.

Definition HTTP_400_BAD_REQUEST : Z := 400.
Definition HTTP_401_UNAUTHORIZED : Z := 401.
Definition HTTP_404_NOT_FOUND : Z := 404.
Definition HTTP_409_CONFLICT : Z := 409.

(** ** Python helpers *)

Definition bytes := list byte.

(** [s.split(sep)] for a one-character separator. *)
Fixpoint split (sep : ascii) (s : string) : list string :=
  match s with
  | EmptyString => [EmptyString]
  | String c s' =>
      if Ascii.eqb c sep then EmptyString :: split sep s'
      else match split sep s' with
           | [] => [String c EmptyString]
           | p :: ps => String c p :: ps
           end
  end.

(** [j[k]] *)
Fixpoint dict_get (k : string) (fields : list (string * JSON)) : option JSON :=
  match fields with
  | [] => None
  | (k', v) :: rest => if String.eqb k' k then Some v else dict_get k rest
  end.

Definition getitem (j : JSON) (k : string) : Outcome JSON :=
  match j with
  | JObj fields =>
      match dict_get k fields with
      | Some v => Return v
      | None => Raised (KeyError k)
      end
  | _ => Raised TypeError
  end.

(** [j != s] for a string [s]: only an equal string is equal to it. *)
Definition ne_str (j : JSON) (s : string) : bool :=
  match j with
  | JStr t => negb (String.eqb t s)
  | _ => true
  end.

(** ** Archives *)

Inductive TarMember :=
  | RegularFile (content : bytes)
  | NotAFile.

Definition TarFile := list (string * TarMember).

(** [TarFile.getmember]: the last occurrence of a name is the one found. *)
Fixpoint getmember (name : string) (tar : TarFile) : option TarMember :=
  match tar with
  | [] => None
  | (n, m) :: rest =>
      match getmember name rest with
      | Some m' => Some m'
      | None => if String.eqb n name then Some m else None
      end
  end.

(** ** [rest_models] and [db_models] *)

(** Modelled from the spec: the roles, from the weakest to the
    strongest. *)
Inductive Role := MEMBER | MAINTAINER | OWNER.

(** A user id is the 16 bytes of a UUID. *)
Definition UserId := bytes.

(** Modelled from the spec: the request and response models of
    [quetz/rest_models.py] and the rows of [quetz/db_models.py], neither of
    which is among the sources, with the attributes [main.py] reads and
    writes.  Each class is a module of its own, so that the attributes keep
    the names they have in the source ([Channel.name], [Package.name], ...). *)
Module rest_models.

Module Channel.
Record t := { name : string; description : string }.
End Channel.

Module Package.
Record t := { name : string; description : string }.
End Package.

Module CPRole.
Record t := { channel : string; package : option string; role : Role }.
End CPRole.

Module BaseApiKey.
Record t := { description : string; roles : list CPRole.t }.
End BaseApiKey.

Module ApiKey.
Record t := { key : string; description : string; roles : list CPRole.t }.
End ApiKey.

End rest_models.

Module db_models.

Module Profile.
Record t := { name : string; avatar_url : string }.
End Profile.

Module User.
Record t := { id : UserId; username : string; profile : Profile.t }.
End User.

Module Channel.
Record t := { name : string; description : string }.
End Channel.

Module ChannelMember.
Record t := { channel_name : string; user_id : UserId; role : Role }.
End ChannelMember.

Module Package.
Record t := { channel : Channel.t; name : string; description : string }.
End Package.

Module PackageMember.
Record t :=
  { channel_name : string; package_name : string;
    user_id : UserId; role : Role }.
End PackageMember.

Module PackageVersion.
Record t :=
  { channel_name : string; package_name : string;
    platform : JSON; version : JSON; build_number : JSON;
    build_string : JSON; filename : string; info : string;
    uploader_id : UserId }.
End PackageVersion.

Module ApiKey.
Record t := { key : string; description : string; owner_id : UserId }.
End ApiKey.

(** A member row as [get_api_keys] reads it next to its key:
    [package_name] is [None] on a row of channel scope. *)
Module Member.
Record t :=
  { channel_name : string; package_name : option string; role : Role }.
End Member.

End db_models.

#[global] Instance Role_eq_dec : EqDecision Role.
Proof. solve_decision. Defined.

#[global] Instance byte_eq_dec : EqDecision byte.
Proof.
  intros x y. destruct (Byte.eqb x y) eqn:E.
  - left. by apply Byte.byte_dec_bl.
  - right. intros H. apply Byte.byte_dec_lb in H. congruence.
Defined.

#[global] Instance CPRole_eq_dec : EqDecision rest_models.CPRole.t.
Proof. solve_decision. Defined.

#[global] Instance ApiKey_eq_dec : EqDecision db_models.ApiKey.t.
Proof. solve_decision. Defined.

(** ** The state a handler runs in *)

(** Modelled from the spec: the tables behind the [Dao], one list of rows
    for each entity of the data model; the scoping tuples of an API key are
    kept with the key. *)
Record DB := {
  users : list db_models.User.t;
  channels : list db_models.Channel.t;
  channel_members : list db_models.ChannelMember.t;
  packages : list db_models.Package.t;
  package_members : list db_models.PackageMember.t;
  package_versions : list db_models.PackageVersion.t;
  api_keys : list (db_models.ApiKey.t * list db_models.Member.t)
}.

(** The files and directories below the working directory. *)
Record FS := {
  files : gmap string bytes;
  dirs : gset string
}.

(** Calls that leave the process. *)
Inductive Event :=
  | ValidateToken (token : option string)
  | SubprocessRun (argv : list string).

Record State := {
  session : gmap string string;
  db : DB;
  fs : FS;
  drawn : nat;
  trace : list Event
}.

Definition with_session (f : gmap string string → gmap string string)
    (st : State) : State :=
  {| session := f (session st); db := db st; fs := fs st;
     drawn := drawn st; trace := trace st |}.

Definition with_db (d : DB) (st : State) : State :=
  {| session := session st; db := d; fs := fs st;
     drawn := drawn st; trace := trace st |}.

Definition with_fs (f : FS) (st : State) : State :=
  {| session := session st; db := db st; fs := f;
     drawn := drawn st; trace := trace st |}.

Definition with_event (e : Event) (st : State) : State :=
  {| session := session st; db := db st; fs := fs st;
     drawn := drawn st; trace := trace st ++ [e] |}.

Definition with_draw (st : State) : State :=
  {| session := session st; db := db st; fs := fs st;
     drawn := S (drawn st); trace := trace st |}.

(** What [authorization.Rules] is built from besides the session and the
    database, which it shares with the handler: the [x-api-key] header. *)
Record Rules := { API_key : option string }.

(** The Python standard library, the identity provider, the indexing tool
    and the role checks of [authorization], none of which [main.py]
    defines.  A handler is correct for every behaviour of these. *)
Record Env := {
  (** [tarfile.open(fileobj=..., mode='r:bz2')]; [None] is [ReadError] *)
  tarfile_open : bytes → option TarFile;
  (** [json.load] on the bytes of a member; [None] is [JSONDecodeError] *)
  json_load : bytes → option JSON;
  json_dumps : JSON → string;
  (** [str(v)] for a decoded value that is not a string *)
  str_of : JSON → string;
  (** [str(uuid.UUID(bytes=b))]; [None] is [ValueError] *)
  uuid_str : bytes → option string;
  (** [uuid.UUID(s).bytes]; [None] is [ValueError] *)
  uuid_bytes : string → option bytes;
  (** [secrets.token_urlsafe(n)], by the number of earlier draws *)
  token_urlsafe : nat → nat → string;
  (** the truth value of what [auth_github.validate_token] returns *)
  validate_token : option string → bool;
  (** [subprocess.run(argv)]: the return code and the files the child
      process leaves; [None] is [FileNotFoundError] *)
  subprocess_run : list string → FS → option (Z * FS);
  (** [Rules.assert_upload_file] *)
  assert_upload_file :
    Rules → gmap string string → DB → string → string → Outcome unit;
  (** [Rules.assert_create_api_key_roles] *)
  assert_create_api_key_roles :
    Rules → gmap string string → DB → list rest_models.CPRole.t →
    Outcome unit
}.

(** ** The monad of handlers *)

Definition M (A : Type) : Type := State → Outcome A * State.

#[global] Instance M_ret : MRet M := λ A a st, (Return a, st).

#[global] Instance M_bind : MBind M := λ A B f m st,
  match m st with
  | (Return a, st') => f a st'
  | (HTTPException c d, st') => (HTTPException c d, st')
  | (Raised e, st') => (Raised e, st')
  end.

(** [raise HTTPException(status_code=c, detail=d)] *)
Definition raise_http {A} (c : Z) (d : option string) : M A :=
  λ st, (HTTPException c d, st).

Definition raise {A} (e : Exception) : M A := λ st, (Raised e, st).

Definition get_state : M State := λ st, (Return st, st).

Definition modify (f : State → State) : M unit := λ st, (Return tt, f st).

(** A call whose outcome does not depend on the handler's state. *)
Definition lift {A} (o : Outcome A) : M A := λ st, (o, st).

(** A call of the [Dao]: it reads and writes the database only. *)
Definition dao {A} (f : DB → Outcome A * DB) : M A := λ st,
  let '(o, d) := f (db st) in (o, with_db d st).

(** [for x in xs: body(x)] *)
Fixpoint for_each {A} (body : A → M unit) (xs : list A) : M unit :=
  match xs with
  | [] => mret tt
  | x :: rest => body x;; for_each body rest
  end.

(** ** The data access layer *)

Module Dao.

Import db_models.

Definition set_channels (cs : list Channel.t)
    (ms : list ChannelMember.t) (d : DB) : DB :=
  {| users := users d; channels := cs; channel_members := ms;
     packages := packages d; package_members := package_members d;
     package_versions := package_versions d; api_keys := api_keys d |}.

Definition set_packages (ps : list Package.t)
    (ms : list PackageMember.t) (d : DB) : DB :=
  {| users := users d; channels := channels d;
     channel_members := channel_members d;
     packages := ps; package_members := ms;
     package_versions := package_versions d; api_keys := api_keys d |}.

Definition set_package_versions (vs : list PackageVersion.t) (d : DB) : DB :=
  {| users := users d; channels := channels d;
     channel_members := channel_members d;
     packages := packages d; package_members := package_members d;
     package_versions := vs; api_keys := api_keys d |}.

Definition set_api_keys
    (ks : list (ApiKey.t * list Member.t)) (d : DB) : DB :=
  {| users := users d; channels := channels d;
     channel_members := channel_members d;
     packages := packages d; package_members := package_members d;
     package_versions := package_versions d; api_keys := ks |}.

(** Modelled from the spec: [Dao.get_user_by_username] of [quetz/dao.py],
    which is not among the sources; a single lookup by name. *)
Definition get_user_by_username (username : string) (d : DB)
    : Outcome (option User.t) * DB :=
  (Return (find (λ u, bool_decide (User.username u = username)) (users d)),
   d).

(** Modelled from the spec: [Dao.get_profile] of [quetz/dao.py]; a user
    has exactly one profile. *)
Definition get_profile (user_id : UserId) (d : DB)
    : Outcome (option Profile.t) * DB :=
  (Return (User.profile <$>
             find (λ u, bool_decide (User.id u = user_id)) (users d)), d).

(** Modelled from the spec: the lookup of a channel by its unique name. *)
Definition find_channel (name : string) (d : DB) : option Channel.t :=
  find (λ c, bool_decide (Channel.name c = name)) (channels d).

(** Modelled from the spec: [Dao.get_channel] of [quetz/dao.py]; the
    channel of that name, names being the unique key of channels. *)
Definition get_channel (name : string) (d : DB)
    : Outcome (option Channel.t) * DB :=
  (Return (find_channel name d), d).

(** Modelled from the spec: [Dao.create_channel] of [quetz/dao.py].  The
    layer enforces the uniqueness of channel names by an atomic
    check-existence-then-insert, a violation being CONFLICT; the creating
    user is recorded as a member with the role handed in. *)
Definition create_channel (data : rest_models.Channel.t)
    (user_id : UserId) (role : Role) (d : DB) : Outcome unit * DB :=
  match find_channel (rest_models.Channel.name data) d with
  | Some _ => (HTTPException HTTP_409_CONFLICT None, d)
  | None =>
      (Return tt,
       set_channels
         (channels d ++
            [{| Channel.name := rest_models.Channel.name data;
                Channel.description := rest_models.Channel.description data |}])
         (channel_members d ++
            [{| ChannelMember.channel_name := rest_models.Channel.name data;
                ChannelMember.user_id := user_id;
                ChannelMember.role := role |}])
         d)
  end.

(** Modelled from the spec: the lookup of a package by channel and name. *)
Definition find_package (channel_name package_name : string) (d : DB)
    : option Package.t :=
  find (λ p, bool_decide (Channel.name (Package.channel p) = channel_name)
             && bool_decide (Package.name p = package_name))
       (packages d).

(** Modelled from the spec: [Dao.get_package] of [quetz/dao.py]; package
    names are unique within their channel. *)
Definition get_package (channel_name package_name : string) (d : DB)
    : Outcome (option Package.t) * DB :=
  (Return (find_package channel_name package_name d), d).

(** Modelled from the spec: [Dao.create_package] of [quetz/dao.py].  A
    package belongs to exactly one existing channel and its name is
    unique there (a violation is CONFLICT, an absent channel NOT_FOUND);
    the creating user is recorded as a member of the package with the
    role handed in. *)
Definition create_package (channel_name : string)
    (new_package : rest_models.Package.t)
    (user_id : UserId) (role : Role) (d : DB) : Outcome unit * DB :=
  match find_channel channel_name d with
  | None => (HTTPException HTTP_404_NOT_FOUND None, d)
  | Some c =>
      match find_package channel_name
              (rest_models.Package.name new_package) d with
      | Some _ => (HTTPException HTTP_409_CONFLICT None, d)
      | None =>
          (Return tt,
           set_packages
             (packages d ++
                [{| Package.channel := c;
                    Package.name := rest_models.Package.name new_package;
                    Package.description :=
                      rest_models.Package.description new_package |}])
             (package_members d ++
                [{| PackageMember.channel_name := channel_name;
                    PackageMember.package_name :=
                      rest_models.Package.name new_package;
                    PackageMember.user_id := user_id;
                    PackageMember.role := role |}])
             d)
      end
  end.

(** Modelled from the spec: the uniqueness key of a version,
    (package, platform, version, build_number, build_string). *)
Definition same_version_key (a b : PackageVersion.t) : bool :=
  bool_decide (PackageVersion.channel_name a = PackageVersion.channel_name b)
  && bool_decide
       (PackageVersion.package_name a = PackageVersion.package_name b)
  && json_eqb (PackageVersion.platform a) (PackageVersion.platform b)
  && json_eqb (PackageVersion.version a) (PackageVersion.version b)
  && json_eqb (PackageVersion.build_number a) (PackageVersion.build_number b)
  && json_eqb (PackageVersion.build_string a) (PackageVersion.build_string b).

(** Modelled from the spec: [Dao.create_version] of [quetz/dao.py].  A
    version row is persisted under its uniqueness key; a duplicate key
    is checked by this layer and is the CONFLICT error.  Rows are never
    updated or deleted. *)
Definition create_version (package : Package.t)
    (platform version build_number build_string : JSON)
    (filename info : string) (uploader_id : UserId) (d : DB)
    : Outcome unit * DB :=
  let row :=
    {| PackageVersion.channel_name := Channel.name (Package.channel package);
       PackageVersion.package_name := Package.name package;
       PackageVersion.platform := platform;
       PackageVersion.version := version;
       PackageVersion.build_number := build_number;
       PackageVersion.build_string := build_string;
       PackageVersion.filename := filename;
       PackageVersion.info := info;
       PackageVersion.uploader_id := uploader_id |} in
  if existsb (same_version_key row) (package_versions d)
  then (HTTPException HTTP_409_CONFLICT None, d)
  else (Return tt, set_package_versions (package_versions d ++ [row]) d).

(** Modelled from the spec: the member row of a scoping tuple. *)
Definition member_of_role (r : rest_models.CPRole.t) : Member.t :=
  {| Member.channel_name := rest_models.CPRole.channel r;
     Member.package_name := rest_models.CPRole.package r;
     Member.role := rest_models.CPRole.role r |}.

(** Modelled from the spec: [Dao.create_api_key] of [quetz/dao.py].  An
    API key is a secret, an owning user and the scoping tuples asked
    for; the secret is stored as it is. *)
Definition create_api_key (user_id : UserId)
    (api_key : rest_models.BaseApiKey.t) (key : string) (d : DB)
    : Outcome unit * DB :=
  (Return tt,
   set_api_keys
     (api_keys d ++
        [({| ApiKey.key := key;
             ApiKey.description := rest_models.BaseApiKey.description api_key;
             ApiKey.owner_id := user_id |},
          member_of_role <$> rest_models.BaseApiKey.roles api_key)])
     d).

(** Modelled from the spec: the rows of the keys of one owner, a pair of
    a member row and its key for every scoping tuple, the rows of a key
    next to each other.
    A key object is its row together with its position in the table,
    which is what tells two rows of equal contents apart. *)
Fixpoint member_key_rows (user_id : UserId) (i : nat)
    (ks : list (ApiKey.t * list Member.t))
    : list (Member.t * (nat * ApiKey.t)) :=
  match ks with
  | [] => []
  | (k, ms) :: rest =>
      (if bool_decide (ApiKey.owner_id k = user_id)
       then (λ m, (m, (i, k))) <$> ms else [])
      ++ member_key_rows user_id (S i) rest
  end.

(** Modelled from the spec: [Dao.get_api_keys] of [quetz/dao.py]; the
    keys of a user with their role tuples, as (member, key) pairs. *)
Definition get_api_keys (user_id : UserId) (d : DB)
    : Outcome (list (Member.t * (nat * ApiKey.t))) * DB :=
  (Return (member_key_rows user_id 0 (api_keys d)), d).

End Dao.

(** ** Authorization *)

Module authorization.

(** Modelled from the spec: the constant [authorization.OWNER], the
    strongest of the three roles. *)
Definition OWNER : Role := OWNER.

(** Modelled from the spec: the user an API key resolves to, by an exact
    match on the stored secret, for a key with at least one scoping
    tuple. *)
Definition resolve_api_key (key : string) (d : DB) : option UserId :=
  (db_models.ApiKey.owner_id ∘ fst) <$>
    find (λ km, bool_decide (db_models.ApiKey.key (fst km) = key)
                && negb (bool_decide (snd km = [])))
         (api_keys d).

(** Modelled from the spec: [Rules.assert_user] of
    [quetz/authorization.py], which is not among the sources.  It
    requires a resolved principal, an API key presented in the header or
    the user id stored in the session, and fails UNAUTHENTICATED when
    there is none.  [Rules] shares the session and the database with the
    handler, so both are read when the call is made. *)
Definition assert_user (env : Env) (auth : Rules) : M UserId := λ st,
  let by_key := API_key auth ≫= λ k, resolve_api_key k (db st) in
  let by_session := session st !! "user_id" ≫= uuid_bytes env in
  match by_key, by_session with
  | Some u, _ => (Return u, st)
  | None, Some u => (Return u, st)
  | None, None =>
      (HTTPException HTTP_401_UNAUTHORIZED (Some "Not logged in"), st)
  end.

End authorization.

(** ** [main.py] *)

Section main.

Context (env : Env).

(** The role checks of [auth], which read the session and the database
    the handler has at the time of the call. *)
Definition auth_assert_upload_file (auth : Rules)
    (channel_name package_name : string) : M unit := λ st,
  (assert_upload_file env auth (session st) (db st)
     channel_name package_name, st).

Definition auth_assert_create_api_key_roles (auth : Rules)
    (roles : list rest_models.CPRole.t) : M unit := λ st,
  (assert_create_api_key_roles env auth (session st) (db st) roles, st).

(** *** Dependency injection *)

Definition get_channel_or_fail (channel_name : string)
    : M db_models.Channel.t :=
  channel ← dao (Dao.get_channel channel_name);
  match channel with
  | None =>
      raise_http HTTP_404_NOT_FOUND
        (Some ("Channel " +:+ channel_name +:+ " not found"))
  | Some channel => mret channel
  end.

Definition get_package_or_fail (channel_name package_name : string)
    : M db_models.Package.t :=
  channel ← get_channel_or_fail channel_name;
  package ← dao (Dao.get_package (db_models.Channel.name channel)
                   package_name);
  match package with
  | None =>
      raise_http HTTP_404_NOT_FOUND
        (Some ("Package " +:+ db_models.Channel.name channel +:+ "/"
                 +:+ package_name +:+ " not found"))
  | Some package => mret package
  end.

(** *** Helper functions *)

(** [session.get(k)] *)
Definition session_get (k : string) : M (option string) :=
  λ st, (Return (session st !! k), st).

(** [session[k] = v] *)
Definition session_set (k v : string) : M unit :=
  modify (with_session (insert k v)).

(** [session.pop(k, None)] *)
Definition session_pop (k : string) : M unit :=
  modify (with_session (delete k)).

Definition logout : M unit :=
  session_pop "user_id";;
  session_pop "identity_provider";;
  session_pop "token".

(** [await auth_github.validate_token(token)]: a call to the provider,
    recorded in the trace. *)
Definition await_validate_token (token : option string) : M bool :=
  modify (with_event (ValidateToken token));;
  mret (validate_token env token).

(** The truth value of [identity_provider and identity_provider == 'github']. *)
Definition is_github (identity_provider : option string) : bool :=
  match identity_provider with
  | None => false
  | Some p => negb (bool_decide (p = "")) && bool_decide (p = "github")
  end.

Definition check_token_revocation : M unit :=
  identity_provider ← session_get "identity_provider";
  if is_github identity_provider then
    token ← session_get "token";
    valid ← await_validate_token token;
    if negb valid then
      logout;;
      raise_http HTTP_401_UNAUTHORIZED (Some "Not logged in")
    else mret tt
  else mret tt.

(** *** Endpoints *)

(** A [RedirectResponse] is its target. *)
Definition route_logout : M string :=
  logout;;
  mret "/static/index.html".

Definition dummy_login (username : string) : M string :=
  user ← dao (Dao.get_user_by_username username);
  logout;;
  match user with
  | None => raise AttributeError
  | Some user =>
      match uuid_str env (db_models.User.id user) with
      | None => raise ValueError
      | Some s =>
          session_set "user_id" s;;
          session_set "identity_provider" "dummy";;
          mret "/static/index.html"
      end
  end.

Definition me (auth : Rules) : M (option db_models.Profile.t) :=
  check_token_revocation;;
  user_id ← authorization.assert_user env auth;
  profile ← dao (Dao.get_profile user_id);
  mret profile.

Definition post_channel (new_channel : rest_models.Channel.t)
    (auth : Rules) : M unit :=
  user_id ← authorization.assert_user env auth;
  channel ← dao (Dao.get_channel (rest_models.Channel.name new_channel));
  match channel with
  | Some _ =>
      raise_http HTTP_409_CONFLICT
        (Some ("Channel " +:+ rest_models.Channel.name new_channel
                 +:+ " exists"))
  | None =>
      dao (Dao.create_channel new_channel user_id authorization.OWNER)
  end.

Definition post_package (channel_name : string)
    (new_package : rest_models.Package.t) (auth : Rules) : M unit :=
  channel ← get_channel_or_fail channel_name;
  user_id ← authorization.assert_user env auth;
  package ← dao (Dao.get_package (db_models.Channel.name channel)
                   (rest_models.Package.name new_package));
  match package with
  | Some _ =>
      raise_http HTTP_409_CONFLICT
        (Some ("Package " +:+ db_models.Channel.name channel +:+ "/"
                 +:+ rest_models.Package.name new_package +:+ " exists"))
  | None =>
      dao (Dao.create_package (db_models.Channel.name channel) new_package
             user_id authorization.OWNER)
  end.

(** [itertools.groupby(xs, key)]: runs of neighbours of equal key. *)
Fixpoint groupby {A K : Type} `{EqDecision K} (key : A → K) (xs : list A)
    : list (K * list A) :=
  match xs with
  | [] => []
  | x :: rest =>
      match groupby key rest with
      | (k, g) :: gs =>
          if decide (key x = k) then (k, x :: g) :: gs
          else (key x, [x]) :: (k, g) :: gs
      | [] => [(key x, [x])]
      end
  end.

Definition get_api_keys (auth : Rules) : M (list rest_models.ApiKey.t) :=
  user_id ← authorization.assert_user env auth;
  api_key_list ← dao (Dao.get_api_keys user_id);
  mret
    ((λ '(api_key, member_key_list),
        {| rest_models.ApiKey.key := db_models.ApiKey.key (snd api_key);
           rest_models.ApiKey.description :=
             db_models.ApiKey.description (snd api_key);
           rest_models.ApiKey.roles :=
             (λ '(member, _),
                {| rest_models.CPRole.channel :=
                     db_models.Member.channel_name member;
                   rest_models.CPRole.package :=
                     db_models.Member.package_name member;
                   rest_models.CPRole.role := db_models.Member.role member |})
             <$> member_key_list |})
     <$> groupby snd api_key_list).

(** [secrets.token_urlsafe(n)] *)
Definition secrets_token_urlsafe (n : nat) : M string := λ st,
  (Return (token_urlsafe env n (drawn st)), with_draw st).

(** The handler ends without a [return]: what it gives back to the
    framework is [None], here [tt]. *)
Definition post_api_key (api_key : rest_models.BaseApiKey.t)
    (auth : Rules) : M unit :=
  auth_assert_create_api_key_roles auth
    (rest_models.BaseApiKey.roles api_key);;
  user_id ← authorization.assert_user env auth;
  key ← secrets_token_urlsafe 32;
  dao (Dao.create_api_key user_id api_key key).

(** An uploaded file: the name the client gave it and its bytes. *)
Record UploadFile := { filename : string; file : bytes }.

(** [with tarfile.open(...) as tar: info = json.load(tar.extractfile('info/index.json'))] *)
Definition load_index (f : UploadFile) : M JSON :=
  match tarfile_open env (file f) with
  | None => raise ReadError
  | Some tar =>
      match getmember "info/index.json" tar with
      | None => raise (KeyError "info/index.json")
      | Some NotAFile => raise AttributeError
      | Some (RegularFile content) =>
          match json_load env content with
          | None => raise JSONDecodeError
          | Some info => mret info
          end
      end
  end.

(** A value inside an f-string. *)
Definition format (v : JSON) : string :=
  match v with
  | JStr s => s
  | _ => str_of env v
  end.

(** [os.makedirs(dir, exist_ok=True)] *)
Definition os_makedirs (dir : string) : M unit :=
  modify (λ st, with_fs {| files := files (fs st);
                           dirs := {[dir]} ∪ dirs (fs st) |} st).

(** [with open(path, 'wb') as my_file: shutil.copyfileobj(src, my_file)] *)
Definition copy_to (path : string) (content : bytes) : M unit :=
  modify (λ st, with_fs {| files := <[path := content]> (files (fs st));
                           dirs := dirs (fs st) |} st).

(** [subprocess.run(argv)]; the return code is not looked at. *)
Definition subprocess_run_ (argv : list string) : M unit :=
  modify (with_event (SubprocessRun argv));;
  ((λ st, match subprocess_run env argv (fs st) with
          | None => (Raised FileNotFoundError, st)
          | Some (_, fs') => (Return tt, with_fs fs' st)
          end) : M unit).

(** The body of the loop of [post_file]. *)
Definition post_file_body (package : db_models.Package.t) (auth : Rules)
    (channel_dir : string) (f : UploadFile) : M unit :=
  info ← load_index f;
  match split "-" (filename f) with
  | [] => raise IndexError
  | part0 :: _ =>
      mismatch ←
        (if negb (bool_decide (part0 = db_models.Package.name package))
         then mret true
         else name ← lift (getitem info "name");
              mret (ne_str name (db_models.Package.name package)));
      if (mismatch : bool) then raise_http HTTP_400_BAD_REQUEST None
      else
        subdir ← lift (getitem info "subdir");
        let dir := channel_dir +:+ "/" +:+ format subdir +:+ "/" in
        os_makedirs dir;;
        copy_to (dir +:+ "/" +:+ filename f) (file f);;
        user_id ← authorization.assert_user env auth;
        platform ← lift (getitem info "subdir");
        version ← lift (getitem info "version");
        build_number ← lift (getitem info "build_number");
        build_string ← lift (getitem info "build");
        dao (Dao.create_version package platform version build_number
               build_string (filename f) (json_dumps env info) user_id)
  end.

Definition channel_dir_of (package : db_models.Package.t) : string :=
  "static/channels/"
    +:+ db_models.Channel.name (db_models.Package.channel package).

Definition post_file (channel_name package_name : string)
    (files : list UploadFile) (auth : Rules) : M unit :=
  package ← get_package_or_fail channel_name package_name;
  auth_assert_upload_file auth
    (db_models.Channel.name (db_models.Package.channel package))
    (db_models.Package.name package);;
  let channel_dir := channel_dir_of package in
  for_each (post_file_body package auth channel_dir) files;;
  subprocess_run_ ["conda"; "index"; channel_dir].

End main.

(** The status a response has when the handler raised [HTTPException]. *)
Definition status_of {A} (o : Outcome A) : option Z :=
  match o with
  | HTTPException c _ => Some c
  | _ => None
  end.

(** How many channels have the name [name]. *)
Definition count_channels (name : string) (d : DB) : nat :=
  List.length (filter (λ c, db_models.Channel.name c = name) (channels d)).

(** ** Two [POST /channels] requests in flight

    Handlers of different requests run in different threads.  Each call
    into the data access layer is atomic, the layer serializing what is
    written; between two such calls of one request the other request may
    run.  A request is at one of the calls of [post_channel] or has
    finished. *)

Module Concurrent.

Inductive PostChannel :=
  | AtAssertUser
  | AtGetChannel (user_id : UserId)
  | AtCreateChannel (user_id : UserId)
  | Finished (o : Outcome unit).

(** What differs between the requests: body, header and session. *)
Record Request := {
  new_channel : rest_models.Channel.t;
  auth : Rules;
  cookie : gmap string string
}.

Section step.

Context (env : Env).

(** One call of [post_channel] for request [rq], on the shared state. *)
Definition step (rq : Request) (pc : PostChannel) (st : State)
    : PostChannel * State :=
  let st := with_session (λ _, cookie rq) st in
  match pc with
  | AtAssertUser =>
      match authorization.assert_user env (auth rq) st with
      | (Return user_id, st') => (AtGetChannel user_id, st')
      | (HTTPException c d, st') => (Finished (HTTPException c d), st')
      | (Raised e, st') => (Finished (Raised e), st')
      end
  | AtGetChannel user_id =>
      match dao (Dao.get_channel
                   (rest_models.Channel.name (new_channel rq))) st with
      | (Return (Some _), st') =>
          (Finished
             (HTTPException HTTP_409_CONFLICT
                (Some ("Channel "
                         +:+ rest_models.Channel.name (new_channel rq)
                         +:+ " exists"))), st')
      | (Return None, st') => (AtCreateChannel user_id, st')
      | (HTTPException c d, st') => (Finished (HTTPException c d), st')
      | (Raised e, st') => (Finished (Raised e), st')
      end
  | AtCreateChannel user_id =>
      let '(o, st') :=
        dao (Dao.create_channel (new_channel rq) user_id
               authorization.OWNER) st in
      (Finished o, st')
  | Finished o => (Finished o, st)
  end.

(** A schedule says which request makes the next call: [false] the
    first, [true] the second. *)
Fixpoint run (rq1 rq2 : Request) (schedule : list bool)
    (pc1 pc2 : PostChannel) (st : State)
    : PostChannel * PostChannel * State :=
  match schedule with
  | [] => (pc1, pc2, st)
  | false :: rest =>
      let '(pc1', st') := step rq1 pc1 st in run rq1 rq2 rest pc1' pc2 st'
  | true :: rest =>
      let '(pc2', st') := step rq2 pc2 st in run rq1 rq2 rest pc1 pc2' st'
  end.

End step.

(** How many calls of the schedule are those of request [b]. *)
Definition turns (b : bool) (schedule : list bool) : nat :=
  List.length (filter (λ x, x = b) schedule).

(** The calls a request has still to make. *)
Definition calls_left (pc : PostChannel) : nat :=
  match pc with
  | AtAssertUser => 3
  | AtGetChannel _ => 2
  | AtCreateChannel _ => 1
  | Finished _ => 0
  end.

(** The request created the channel. *)
Definition won (pc : PostChannel) : bool :=
  match pc with
  | Finished (Return _) => true
  | _ => false
  end.

(** The request was refused with CONFLICT. *)
Definition lost (pc : PostChannel) : bool :=
  match pc with
  | Finished o => bool_decide (status_of o = Some HTTP_409_CONFLICT)
  | _ => false
  end.

Definition pending (pc : PostChannel) : bool :=
  match pc with
  | Finished _ => false
  | _ => true
  end.

(** What holds between any two calls: the API keys are those of the
    start, a finished request has won or lost, there are as many
    channels of the name as winners, at most one, and at least one once
    a request has lost. *)
Definition invariant (name : string)
    (keys : list (db_models.ApiKey.t * list db_models.Member.t))
    (pc1 pc2 : PostChannel) (st : State) : Prop :=
  api_keys (db st) = keys
  ∧ pending pc1 || won pc1 || lost pc1 = true
  ∧ pending pc2 || won pc2 || lost pc2 = true
  ∧ count_channels name (db st) = (Nat.b2n (won pc1) + Nat.b2n (won pc2))%nat
  ∧ (count_channels name (db st) ≤ 1)%nat
  ∧ (lost pc1 || lost pc2 = true → 1 ≤ count_channels name (db st))%nat.

End Concurrent.

(** ** The loop of [post_file]

    [post_file] has come to a file of its batch when the package was found,
    the caller may upload to it and the files before it, [earlier], went
    through the loop; [st'] is the state then. *)
Definition reaches (env : Env) (channel_name package_name : string)
    (auth : Rules) (earlier : list UploadFile) (st : State)
    (package : db_models.Package.t) (st' : State) : Prop :=
  ∃ st1 st2,
    get_package_or_fail channel_name package_name st = (Return package, st1)
    ∧ auth_assert_upload_file env auth
        (db_models.Channel.name (db_models.Package.channel package))
        (db_models.Package.name package) st1 = (Return tt, st2)
    ∧ for_each (post_file_body env package auth (channel_dir_of package))
        earlier st2 = (Return tt, st').


(** The secret of the API key created last. *)
Definition created_key (st : State) : option string :=
  (db_models.ApiKey.key ∘ fst) <$> last (api_keys (db st)).

(** ** A small instance

    One environment and one database on which the handlers can be run:
    two archives known to [tarfile], a user, a channel and a package. *)

Module Demo.

Definition b (s : string) : bytes := list_byte_of_string s.

Fixpoint assoc {A} (k : bytes) (table : list (bytes * A)) : option A :=
  match table with
  | [] => None
  | (k', v) :: rest => if bool_decide (k' = k) then Some v else assoc k rest
  end.

Definition index_json : JSON :=
  JObj [("name", JStr "numpy"); ("subdir", JStr "linux-64");
        ("version", JStr "1.18.1"); ("build_number", JNum 0);
        ("build", JStr "py38_0")].

Definition archives : list (bytes * TarFile) :=
  [(b "first build of numpy",
    [("info/index.json", RegularFile (b "index of numpy"))]);
   (b "second build of numpy",
    [("info/files", RegularFile (b "lib/numpy.so"));
     ("info/index.json", RegularFile (b "index of numpy"))]);
   (b "archive without index",
    [("info/files", RegularFile (b "lib/numpy.so"))]);
   (b "archive with a broken index",
    [("info/index.json", RegularFile (b "{name: "))])].

Definition documents : list (bytes * JSON) :=
  [(b "index of numpy", index_json)].

Definition env : Env :=
  {| tarfile_open raw := assoc raw archives;
     json_load raw := assoc raw documents;
     json_dumps _ := "{}";
     str_of _ := "None";
     uuid_str u := Some (string_of_list_byte u);
     uuid_bytes s := Some (list_byte_of_string s);
     token_urlsafe _ i := String (ascii_of_nat (65 + i)) "";
     validate_token _ := false;
     subprocess_run _ f := Some (0, f);
     assert_upload_file _ _ _ _ _ := Return tt;
     assert_create_api_key_roles _ _ _ _ := Return tt |}.

Definition alice : db_models.User.t :=
  {| db_models.User.id := b "alice's sixteen!";
     db_models.User.username := "alice";
     db_models.User.profile :=
       {| db_models.Profile.name := "Alice"; db_models.Profile.avatar_url := "" |} |}.

Definition conda_forge : db_models.Channel.t :=
  {| db_models.Channel.name := "conda-forge";
     db_models.Channel.description := "community packages" |}.

Definition numpy : db_models.Package.t :=
  {| db_models.Package.channel := conda_forge;
     db_models.Package.name := "numpy";
     db_models.Package.description := "arrays" |}.

Definition database : DB :=
  {| users := [alice];
     channels := [conda_forge];
     channel_members :=
       [{| db_models.ChannelMember.channel_name := "conda-forge";
           db_models.ChannelMember.user_id := db_models.User.id alice;
           db_models.ChannelMember.role := OWNER |}];
     packages := [numpy];
     package_members :=
       [{| db_models.PackageMember.channel_name := "conda-forge";
           db_models.PackageMember.package_name := "numpy";
           db_models.PackageMember.user_id := db_models.User.id alice;
           db_models.PackageMember.role := OWNER |}];
     package_versions := [];
     api_keys := [] |}.

(** The state of a request that carries the session [s]. *)
Definition state (s : gmap string string) : State :=
  {| session := s; db := database;
     fs := {| files := ∅; dirs := ∅ |}; drawn := 0; trace := [] |}.

(** The session [dummy_login] leaves for alice. *)
Definition alice_session : gmap string string :=
  {[ "user_id" := "alice's sixteen!"; "identity_provider" := "dummy" ]}.

(** A session that was opened through the GitHub login. *)
Definition github_session : gmap string string :=
  {[ "user_id" := "alice's sixteen!"; "identity_provider" := "github";
     "token" := "gho_token" ]}.

Definition no_key : Rules := {| API_key := None |}.

(** A request of alice to create the channel bioconda. *)
Definition bioconda : rest_models.Channel.t :=
  {| rest_models.Channel.name := "bioconda";
     rest_models.Channel.description := "bioinformatics" |}.

Definition post_bioconda : Concurrent.Request :=
  {| Concurrent.new_channel := bioconda;
     Concurrent.auth := no_key;
     Concurrent.cookie := alice_session |}.

Definition scipy : rest_models.Package.t :=
  {| rest_models.Package.name := "scipy";
     rest_models.Package.description := "science" |}.

(** Two uploads of one name and of the same metadata, of different
    bytes. *)
Definition first_upload : UploadFile :=
  {| filename := "numpy-1.18.1-py38_0.tar.bz2";
     file := b "first build of numpy" |}.


(** An upload for another package: the name before the first [-] is not
    numpy. *)
Definition misnamed_upload : UploadFile :=
  {| filename := "scipy-1.4.1-py38_0.tar.bz2";
     file := b "first build of numpy" |}.

(** Uploads that are no archive, or have no usable index. *)
Definition corrupt_upload : UploadFile :=
  {| filename := "numpy-1.18.1-py38_0.tar.bz2";
     file := b "not a compressed archive" |}.

Definition corrupt_misnamed_upload : UploadFile :=
  {| filename := "scipy-1.4.1-py38_0.tar.bz2";
     file := b "not a compressed archive" |}.



Definition new_key : rest_models.BaseApiKey.t :=
  {| rest_models.BaseApiKey.description := "for the build machine";
     rest_models.BaseApiKey.roles :=
       [{| rest_models.CPRole.channel := "conda-forge";
           rest_models.CPRole.package := Some "numpy";
           rest_models.CPRole.role := MAINTAINER |}] |}.

End Demo.

(** ** The read endpoints of channels and packages *)

(** [GET /channels/{channel_name}]: the handler returns what its dependency
    resolved. *)
Definition get_channel (channel_name : string) : M db_models.Channel.t :=
  get_channel_or_fail channel_name.

(** [GET /channels/{channel_name}/packages/{package_name}] *)
Definition get_package (channel_name package_name : string)
    : M db_models.Package.t :=
  get_package_or_fail channel_name package_name.

(** ** Notions the properties are stated with *)

(** [c in s] for a character. *)
Fixpoint occurs (c : ascii) (s : string) : bool :=
  match s with
  | EmptyString => false
  | String c' s' => Ascii.eqb c' c || occurs c s'
  end.

(** The second database has the tables of the first, with version rows
    added at the end of theirs and nothing else changed. *)
Definition only_adds_versions (d d' : DB) : Prop :=
  users d' = users d
  ∧ channels d' = channels d
  ∧ channel_members d' = channel_members d
  ∧ packages d' = packages d
  ∧ package_members d' = package_members d
  ∧ api_keys d' = api_keys d
  ∧ package_versions d `prefix_of` package_versions d'.

(** The role tuple [get_api_keys] shows for a member row. *)
Definition role_of_member (member : db_models.Member.t)
    : rest_models.CPRole.t :=
  {| rest_models.CPRole.channel := db_models.Member.channel_name member;
     rest_models.CPRole.package := db_models.Member.package_name member;
     rest_models.CPRole.role := db_models.Member.role member |}.

(** ** A second instance

    An identity provider that accepts every token, role checks that refuse
    every caller, and an archive whose index names the package and the
    platform and nothing else. *)

Module Examples.

Definition partial_index : JSON :=
  JObj [("name", JStr "numpy"); ("subdir", JStr "linux-64")].

Definition archives : list (bytes * TarFile) :=
  [(Demo.b "build without a version",
    [("info/index.json", RegularFile (Demo.b "index without a version"))])].

Definition documents : list (bytes * JSON) :=
  [(Demo.b "index without a version", partial_index)].

Definition env : Env :=
  {| tarfile_open raw := Demo.assoc raw (archives ++ Demo.archives);
     json_load raw := Demo.assoc raw (documents ++ Demo.documents);
     json_dumps := json_dumps Demo.env;
     str_of := str_of Demo.env;
     uuid_str := uuid_str Demo.env;
     uuid_bytes := uuid_bytes Demo.env;
     token_urlsafe := token_urlsafe Demo.env;
     validate_token _ := true;
     subprocess_run := subprocess_run Demo.env;
     assert_upload_file _ _ _ _ _ :=
       HTTPException 403 (Some "No permission");
     assert_create_api_key_roles _ _ _ _ :=
       HTTPException 403 (Some "No permission") |}.


End Examples.

(** * Properties *)

(** ** Sessions *)

Section session_properties.

Context (env : Env).

Lemma logout_spec (st : State) :
  logout st =
    (Return tt,
     with_session
       (λ s, delete "token" (delete "identity_provider" (delete "user_id" s)))
       st).
Proof. reflexivity. Qed.

Lemma check_token_revocation_skip (st : State) :
  is_github (session st !! "identity_provider") = false →
  check_token_revocation env st = (Return tt, st).
Proof.
  intros H. unfold check_token_revocation, session_get, mbind, M_bind.
  by rewrite H.
Qed.

Lemma is_github_iff (p : option string) :
  is_github p = true ↔ p = Some "github".
Proof.
  destruct p as [p|]; simpl; [|done].
  rewrite andb_true_iff, negb_true_iff, !bool_decide_eq_true, bool_decide_eq_false.
  split; [intros [_ ->]; done | intros [= ->]; done].
Qed.

Lemma logout_session_idemp (s : gmap string string) :
  let f := λ s : gmap string string,
    delete "token" (delete "identity_provider" (delete "user_id" s)) in
  f (f s) = f s.
Proof.
  simpl. apply map_eq. intros k.
  rewrite !lookup_delete. by repeat case_decide.
Qed.

Lemma me_anonymous (st : State) :
  session st !! "identity_provider" = None →
  session st !! "user_id" = None →
  me env {| API_key := None |} st
    = (HTTPException HTTP_401_UNAUTHORIZED (Some "Not logged in"), st).
Proof.
  intros Hp Hu. unfold me, mbind, M_bind.
  rewrite check_token_revocation_skip by (by rewrite Hp).
  unfold authorization.assert_user. simpl. by rewrite Hu.
Qed.

(** C7: logout removes the user-id, identity-provider and token fields of
    any session and nothing else; logging out a second time changes
    nothing more; and a [/me] request that then comes with this session
    (and no API key) is answered 401. *)
Theorem logout_clears_is_idempotent_and_me_fails (st : State) :
  let st1 := snd (logout st) in
  fst (logout st) = Return tt
  ∧ session st1
      = delete "token"
          (delete "identity_provider" (delete "user_id" (session st)))
  ∧ session st1 !! "user_id" = None
  ∧ session st1 !! "identity_provider" = None
  ∧ session st1 !! "token" = None
  ∧ logout st1 = (Return tt, st1)
  ∧ me env {| API_key := None |} st1
      = (HTTPException HTTP_401_UNAUTHORIZED (Some "Not logged in"), st1).
Proof.
  rewrite logout_spec. simpl.
  assert (Hu : delete "token" (delete "identity_provider"
                 (delete "user_id" (session st))) !! "user_id" = None).
  { rewrite !lookup_delete_ne by done. apply lookup_delete_eq. }
  assert (Hp : delete "token" (delete "identity_provider"
                 (delete "user_id" (session st))) !! "identity_provider"
               = None).
  { rewrite lookup_delete_ne by done. apply lookup_delete_eq. }
  repeat split; try done.
  - apply lookup_delete_eq.
  - rewrite logout_spec. f_equal. unfold with_session. simpl. f_equal.
    apply logout_session_idemp.
  - by apply me_anonymous.
Qed.

(** C6: when the session records the provider [github] and the
    validation of the stored token by the provider does not succeed,
    [/me] is answered 401 and the session is left logged out: the three
    fields are gone.  The provider was asked once, and nothing else
    changed. *)
Theorem me_revoked_session_is_logged_out (auth : Rules) (st : State) :
  session st !! "identity_provider" = Some "github" →
  validate_token env (session st !! "token") = false →
  let st' := snd (me env auth st) in
  fst (me env auth st)
    = HTTPException HTTP_401_UNAUTHORIZED (Some "Not logged in")
  ∧ st' = snd (logout (with_event (ValidateToken (session st !! "token")) st))
  ∧ session st' !! "user_id" = None
  ∧ session st' !! "identity_provider" = None
  ∧ session st' !! "token" = None
  ∧ trace st' = (trace st ++ [ValidateToken (session st !! "token")])%list
  ∧ db st' = db st ∧ fs st' = fs st.
Proof.
  intros Hp Hv.
  assert (Hme : me env auth st
    = (HTTPException HTTP_401_UNAUTHORIZED (Some "Not logged in"),
       snd (logout (with_event (ValidateToken (session st !! "token")) st)))).
  { unfold me, check_token_revocation, session_get, await_validate_token,
      mbind, M_bind, modify, mret, M_ret.
    rewrite Hp. simpl. by rewrite Hv. }
  rewrite Hme, logout_spec. simpl.
  repeat split; try done.
  - rewrite !lookup_delete_ne by done. apply lookup_delete_eq.
  - rewrite lookup_delete_ne by done. apply lookup_delete_eq.
  - apply lookup_delete_eq.
Qed.

(** C10: the revocation check looks at sessions of the provider [github]
    only.  On a session whose identity_provider is absent or anything
    else it returns at once: no call to a provider is made, the session
    is not cleared, nothing is raised.  The session that [dummy_login]
    sets up is such a session. *)
Theorem check_token_revocation_only_for_github (st : State) :
  (session st !! "identity_provider" ≠ Some "github" →
   check_token_revocation env st = (Return tt, st))
  ∧ (∀ username target st',
       dummy_login env username st = (Return target, st') →
       session st' !! "identity_provider" = Some "dummy"
       ∧ check_token_revocation env st' = (Return tt, st')).
Proof.
  split.
  - intros H. apply check_token_revocation_skip.
    destruct (is_github _) eqn:E; [|done].
    by apply is_github_iff in E.
  - intros username target st' H.
    assert (Hd : session st' !! "identity_provider" = Some "dummy").
    { revert H. unfold dummy_login, dao, Dao.get_user_by_username,
        mbind, M_bind. simpl.
      destruct (find _ _) as [u|]; [|done].
      destruct (uuid_str env _) as [s|]; [|done].
      simpl. intros [= _ <-]. simpl. apply lookup_insert_eq. }
    split; [done|].
    apply check_token_revocation_skip. by rewrite Hd.
Qed.

End session_properties.

Example logout_github_session :
  session (snd (logout (Demo.state Demo.github_session))) = ∅.
Proof. by vm_compute. Qed.

Lemma me_revoked_session_is_logged_out_witness :
  fst (me Demo.env Demo.no_key (Demo.state Demo.github_session))
    = HTTPException HTTP_401_UNAUTHORIZED (Some "Not logged in")
  ∧ session (snd (me Demo.env Demo.no_key (Demo.state Demo.github_session)))
      !! "user_id" = None.
Proof.
  pose proof (me_revoked_session_is_logged_out Demo.env Demo.no_key
                (Demo.state Demo.github_session)) as H.
  simpl in H. destruct H as (H1 & _ & H2 & _).
  - reflexivity.
  - reflexivity.
  - split; [exact H1 | exact H2].
Defined.

Lemma check_token_revocation_only_for_github_witness :
  check_token_revocation Demo.env (Demo.state Demo.alice_session)
    = (Return tt, Demo.state Demo.alice_session)
  ∧ session (snd (dummy_login Demo.env "alice" (Demo.state ∅)))
      !! "identity_provider" = Some "dummy".
Proof.
  destruct (check_token_revocation_only_for_github Demo.env
              (Demo.state Demo.alice_session)) as [H1 _].
  destruct (check_token_revocation_only_for_github Demo.env
              (Demo.state ∅)) as [_ H2].
  split.
  - apply H1. by vm_compute.
  - apply (H2 "alice" "/static/index.html"
             (snd (dummy_login Demo.env "alice" (Demo.state ∅)))).
    reflexivity.
Defined.

(** ** Channels and packages *)

Section channel_properties.

Context (env : Env).

Lemma find_channel_count (name : string) (d : DB) :
  Dao.find_channel name d = None ↔ count_channels name d = 0%nat.
Proof.
  unfold Dao.find_channel, count_channels.
  induction (channels d) as [|c cs IH]; simpl; [done|].
  rewrite filter_cons. case_bool_decide; case_decide; simpl; try done.
Qed.

Lemma find_channel_taken_count (name : string) (d : DB) :
  Dao.find_channel name d ≠ None → (1 ≤ count_channels name d)%nat.
Proof.
  intros H. destruct (count_channels name d) eqn:Hz; [|lia].
  by apply find_channel_count in Hz.
Qed.

Lemma create_channel_fresh (data : rest_models.Channel.t)
    (user_id : UserId) (role : Role) (d : DB) :
  Dao.find_channel (rest_models.Channel.name data) d = None →
  ∃ d', Dao.create_channel data user_id role d = (Return tt, d')
        ∧ count_channels (rest_models.Channel.name data) d' = 1%nat
        ∧ api_keys d' = api_keys d
        ∧ {| db_models.ChannelMember.channel_name :=
               rest_models.Channel.name data;
             db_models.ChannelMember.user_id := user_id;
             db_models.ChannelMember.role := role |}
            ∈ channel_members d'.
Proof.
  intros Hn. unfold Dao.create_channel. rewrite Hn.
  eexists. split; [done|]. split; [|split; [done|]].
  - apply find_channel_count in Hn. unfold count_channels in *. simpl.
    rewrite filter_app, length_app, Hn, filter_cons. simpl.
    by case_decide.
  - simpl. apply elem_of_app. right. by apply list_elem_of_singleton.
Qed.

Lemma create_channel_taken (data : rest_models.Channel.t)
    (user_id : UserId) (role : Role) (d : DB) :
  Dao.find_channel (rest_models.Channel.name data) d ≠ None →
  Dao.create_channel data user_id role d
    = (HTTPException HTTP_409_CONFLICT None, d).
Proof.
  intros Hn. unfold Dao.create_channel.
  by destruct (Dao.find_channel _ _).
Qed.

(** What [assert_user] answers depends on the session and on the table
    of API keys only, and it changes nothing. *)
Lemma assert_user_stable (auth : Rules) (st st' : State) :
  session st = session st' →
  api_keys (db st) = api_keys (db st') →
  authorization.assert_user env auth st
    = (fst (authorization.assert_user env auth st'), st).
Proof.
  intros Hs Hk. unfold authorization.assert_user, authorization.resolve_api_key.
  rewrite Hs, Hk. cbv zeta.
  by repeat case_match.
Qed.

Import Concurrent.

Lemma invariant_sym name keys pc1 pc2 st :
  invariant name keys pc1 pc2 st → invariant name keys pc2 pc1 st.
Proof.
  unfold invariant. intros (?&?&?&?&?&?).
  rewrite (orb_comm (lost pc2)), (Nat.add_comm (Nat.b2n (won pc2))). done.
Qed.

(** A call of one request keeps the invariant and is one call less to
    make. *)
Lemma step_invariant (rq : Request) (u : UserId) (st0 : State)
    (pc other : PostChannel) (st : State) :
  fst (authorization.assert_user env (auth rq)
         (with_session (λ _, cookie rq) st0)) = Return u →
  let name := rest_models.Channel.name (new_channel rq) in
  invariant name (api_keys (db st0)) pc other st →
  invariant name (api_keys (db st0)) (step env rq pc st).1 other
    (step env rq pc st).2
  ∧ (calls_left (step env rq pc st).1 ≤ calls_left pc - 1)%nat.
Proof.
  intros Hauth name. subst name.
  intros (Hk & Hpc & Ho & Hc & Hle & Hl).
  destruct pc as [|v|v|o].
  - unfold step.
    rewrite (assert_user_stable _ _ (with_session (λ _, cookie rq) st0))
      by done.
    rewrite Hauth. simpl. split; [|lia]. by repeat split.
  - unfold step, dao, Dao.get_channel. simpl.
    destruct (Dao.find_channel _ (db st)) as [c|] eqn:Hf; simpl.
    + split; [|lia]. repeat split; try done.
      intros _. apply find_channel_taken_count. simpl. by rewrite Hf.
    + split; [|lia]. by repeat split.
  - unfold step, dao. simpl.
    destruct (Dao.find_channel (rest_models.Channel.name (new_channel rq))
                (db st)) as [c|] eqn:Hf.
    + rewrite create_channel_taken by (by rewrite Hf). simpl.
      split; [|lia]. repeat split; try done.
      intros _. apply find_channel_taken_count. simpl. by rewrite Hf.
    + destruct (create_channel_fresh (new_channel rq) v authorization.OWNER
                  (db st) Hf) as (d' & -> & Hone & Hkeys & _).
      simpl. apply find_channel_count in Hf.
      rewrite Hf in Hc, Hl. simpl in Hc.
      split; [|lia]. repeat split; simpl; try done.
      * congruence.
      * rewrite Hone. destruct (won other); simpl in *; lia.
      * lia.
      * intros _. lia.
  - simpl. split; [|lia]. by repeat split.
Qed.

(** Under any schedule that lets both requests make their calls, both
    finish with the invariant kept. *)
Lemma run_invariant (rq1 rq2 : Request) (u1 u2 : UserId) (st0 : State)
    (schedule : list bool) :
  fst (authorization.assert_user env (auth rq1)
         (with_session (λ _, cookie rq1) st0)) = Return u1 →
  fst (authorization.assert_user env (auth rq2)
         (with_session (λ _, cookie rq2) st0)) = Return u2 →
  let name := rest_models.Channel.name (new_channel rq1) in
  rest_models.Channel.name (new_channel rq2) = name →
  ∀ pc1 pc2 st,
    invariant name (api_keys (db st0)) pc1 pc2 st →
    (calls_left pc1 ≤ turns false schedule)%nat →
    (calls_left pc2 ≤ turns true schedule)%nat →
    let '(pc1', pc2', st') := run env rq1 rq2 schedule pc1 pc2 st in
    invariant name (api_keys (db st0)) pc1' pc2' st'
    ∧ pending pc1' = false ∧ pending pc2' = false.
Proof.
  intros H1 H2 name Hname.
  induction schedule as [|[] rest IH]; intros pc1 pc2 st Hinv Hc1 Hc2.
  - simpl. split; [done|].
    unfold turns in *. simpl in *.
    split; [destruct pc1|destruct pc2]; simpl in *; done || lia.
  - simpl. destruct (step env rq2 pc2 st) as [pc2' st'] eqn:Hs.
    apply invariant_sym in Hinv.
    destruct (step_invariant rq2 u2 st0 pc2 pc1 st H2) as [Hinv' Hcl].
    { by rewrite Hname. }
    rewrite Hs, Hname in *. simpl in *.
    apply IH; [by apply invariant_sym|done|].
    unfold turns in *. rewrite filter_cons in Hc2.
    case_decide; [|done]. simpl in Hc2. lia.
  - simpl. destruct (step env rq1 pc1 st) as [pc1' st'] eqn:Hs.
    destruct (step_invariant rq1 u1 st0 pc1 pc2 st H1 Hinv) as [Hinv' Hcl].
    rewrite Hs in *. simpl in *.
    apply IH; [done| |done].
    unfold turns in *. rewrite filter_cons in Hc1.
    case_decide; [|done]. simpl in Hc1. lia.
Qed.

Lemma with_db_same (st : State) : with_db (db st) st = st.
Proof. by destruct st. Qed.

Lemma won_finished (o : Outcome unit) : won (Finished o) = true → o = Return tt.
Proof. destruct o as [[]| |]; done. Qed.

Lemma lost_finished (o : Outcome unit) :
  lost (Finished o) = true → status_of o = Some HTTP_409_CONFLICT.
Proof. simpl. by intros ?%bool_decide_eq_true. Qed.

(** The calls of one request, made with no other request in between,
    are the handler. *)
Lemma run_alone (rq other : Request) (pc : PostChannel) (st : State) :
  run env rq other [false; false; false] AtAssertUser pc st
    = (Finished
         (post_channel env (new_channel rq) (auth rq)
            (with_session (λ _, cookie rq) st)).1,
       pc,
       (post_channel env (new_channel rq) (auth rq)
          (with_session (λ _, cookie rq) st)).2).
Proof.
  unfold run, step, post_channel, mbind, M_bind.
  rewrite (assert_user_stable _ _ (with_session (λ _, cookie rq) st)) by done.
  destruct (authorization.assert_user _ _ _).1 as [u| |]; simpl; try done.
  unfold dao, Dao.get_channel. simpl.
  destruct (Dao.find_channel _ _); simpl; [done|].
  by destruct (Dao.create_channel _ _ _ _).
Qed.

(** C8: two [POST /channels] requests of authenticated callers for one
    name that is not taken.  Whatever the order in which their calls to
    the data access layer are interleaved, once both have made their
    calls one has succeeded, the other was refused with 409, and there
    is one channel of the name.  Made one after the other, the first
    succeeds and the second fails with 409 and changes nothing. *)
Theorem post_channel_twice_one_success_one_conflict
    (rq1 rq2 : Request) (u1 u2 : UserId) (st : State) :
  rest_models.Channel.name (new_channel rq2)
    = rest_models.Channel.name (new_channel rq1) →
  fst (authorization.assert_user env (auth rq1)
         (with_session (λ _, cookie rq1) st)) = Return u1 →
  fst (authorization.assert_user env (auth rq2)
         (with_session (λ _, cookie rq2) st)) = Return u2 →
  Dao.find_channel (rest_models.Channel.name (new_channel rq1)) (db st)
    = None →
  (∀ schedule,
     (3 ≤ turns false schedule)%nat → (3 ≤ turns true schedule)%nat →
     ∃ o1 o2 st',
       run env rq1 rq2 schedule AtAssertUser AtAssertUser st
         = (Finished o1, Finished o2, st')
       ∧ (o1 = Return tt ∧ status_of o2 = Some HTTP_409_CONFLICT
          ∨ status_of o1 = Some HTTP_409_CONFLICT ∧ o2 = Return tt)
       ∧ count_channels (rest_models.Channel.name (new_channel rq1))
           (db st') = 1%nat)
  ∧ (∃ st1 detail,
       post_channel env (new_channel rq1) (auth rq1)
         (with_session (λ _, cookie rq1) st) = (Return tt, st1)
       ∧ post_channel env (new_channel rq2) (auth rq2)
           (with_session (λ _, cookie rq2) st1)
         = (HTTPException HTTP_409_CONFLICT detail,
            with_session (λ _, cookie rq2) st1)).
Proof.
  intros Hname H1 H2 Hfresh. split.
  - intros schedule Ht1 Ht2.
    assert (Hstart : invariant (rest_models.Channel.name (new_channel rq1))
                       (api_keys (db st)) AtAssertUser AtAssertUser st).
    { apply find_channel_count in Hfresh. unfold invariant.
      rewrite Hfresh. simpl. repeat split; done || lia. }
    pose proof (run_invariant rq1 rq2 u1 u2 st schedule H1 H2 Hname
                  AtAssertUser AtAssertUser st Hstart Ht1 Ht2) as Hrun.
    destruct (run env rq1 rq2 schedule AtAssertUser AtAssertUser st)
      as [[pc1 pc2] st'].
    destruct Hrun as [(_ & Hpc1 & Hpc2 & Hc & Hle & Hl) [Hp1 Hp2]].
    destruct pc1 as [| | |o1]; try done.
    destruct pc2 as [| | |o2]; try done.
    exists o1, o2, st'. split; [done|].
    rewrite Hp1 in Hpc1. rewrite Hp2 in Hpc2.
    destruct (won (Finished o1)) eqn:W1, (won (Finished o2)) eqn:W2;
      simpl in Hc, Hpc1, Hpc2.
    + lia.
    + split; [|done]. left.
      split; [by apply won_finished|by apply lost_finished].
    + split; [|done]. right.
      split; [by apply lost_finished|by apply won_finished].
    + assert (1 ≤ count_channels (rest_models.Channel.name
                                    (new_channel rq1)) (db st'))%nat
        by (apply Hl; simpl; by rewrite Hpc1).
      lia.
  - destruct (create_channel_fresh (new_channel rq1) u1 authorization.OWNER
                (db st) Hfresh) as (d' & Hcreate & Hone & Hkeys & _).
    exists (with_db d' (with_session (λ _, cookie rq1) st)).
    exists (Some ("Channel " +:+ rest_models.Channel.name (new_channel rq2)
                    +:+ " exists")).
    split.
    + unfold post_channel, mbind, M_bind.
      rewrite (assert_user_stable _ _ (with_session (λ _, cookie rq1) st))
        by done.
      rewrite H1. unfold dao, Dao.get_channel. simpl.
      rewrite Hfresh. simpl. by rewrite Hcreate.
    + unfold post_channel, mbind, M_bind.
      rewrite (assert_user_stable _ _ (with_session (λ _, cookie rq2) st))
        by done.
      rewrite H2. unfold dao, Dao.get_channel. simpl.
      rewrite Hname.
      destruct (Dao.find_channel _ d') eqn:Hf; [done|].
      apply find_channel_count in Hf. lia.
Qed.

Lemma find_app_last {A} (f : A → bool) (l : list A) (x : A) :
  f x = true → find f (l ++ [x]) ≠ None.
Proof.
  intros Hx. induction l as [|y l IH]; simpl.
  - by rewrite Hx.
  - by destruct (f y).
Qed.

(** C9: a channel or a package that [post_channel] or [post_package]
    has created exists afterwards, and the caller, as [assert_user]
    resolved it, is among its members with the role OWNER. *)
Theorem created_channel_and_package_have_owner :
  (∀ new_channel auth st st',
     post_channel env new_channel auth st = (Return tt, st') →
     ∃ user_id,
       fst (authorization.assert_user env auth st) = Return user_id
       ∧ Dao.find_channel (rest_models.Channel.name new_channel) (db st')
           ≠ None
       ∧ {| db_models.ChannelMember.channel_name :=
              rest_models.Channel.name new_channel;
            db_models.ChannelMember.user_id := user_id;
            db_models.ChannelMember.role := OWNER |}
           ∈ channel_members (db st'))
  ∧ (∀ channel_name new_package auth st st',
       post_package env channel_name new_package auth st = (Return tt, st') →
       ∃ user_id,
         fst (authorization.assert_user env auth st) = Return user_id
         ∧ Dao.find_package channel_name
             (rest_models.Package.name new_package) (db st') ≠ None
         ∧ {| db_models.PackageMember.channel_name := channel_name;
              db_models.PackageMember.package_name :=
                rest_models.Package.name new_package;
              db_models.PackageMember.user_id := user_id;
              db_models.PackageMember.role := OWNER |}
             ∈ package_members (db st')).
Proof.
  split.
  - intros new_channel auth st st'.
    unfold post_channel, mbind, M_bind.
    rewrite (assert_user_stable _ _ st) by done.
    destruct (authorization.assert_user _ _ _).1 as [u| |] eqn:Hu;
      simpl; try done.
    unfold dao, Dao.get_channel. simpl.
    destruct (Dao.find_channel _ _) eqn:Hf; simpl; [done|].
    destruct (create_channel_fresh new_channel u authorization.OWNER
                (db st) Hf) as (d' & -> & Hone & _ & Hin).
    intros [= <-]. exists u. simpl. split; [done|]. split; [|done].
    intros Hn%find_channel_count. lia.
  - intros channel_name new_package auth st st'.
    unfold post_package, get_channel_or_fail, mbind, M_bind, dao,
      Dao.get_channel. simpl.
    destruct (Dao.find_channel channel_name (db st)) as [c|] eqn:Hc;
      simpl; [|done].
    assert (Hcn : db_models.Channel.name c = channel_name).
    { apply find_some in Hc as [_ Hc]. by apply bool_decide_eq_true in Hc. }
    rewrite (assert_user_stable _ _ st) by done.
    destruct (authorization.assert_user _ _ _).1 as [u| |] eqn:Hu;
      simpl; try done.
    unfold Dao.get_package. simpl. rewrite Hcn.
    destruct (Dao.find_package _ _ _) eqn:Hp; simpl; [done|].
    unfold Dao.create_package. rewrite Hc, Hp. simpl.
    intros [= <-]. exists u. simpl. split; [done|]. split.
    + unfold Dao.find_package. simpl. apply find_app_last. simpl.
      rewrite Hcn. by rewrite !bool_decide_eq_true_2.
    + apply elem_of_app. right. by apply list_elem_of_singleton.
Qed.

End channel_properties.

Lemma post_channel_twice_one_success_one_conflict_witness :
  ∃ o1 o2 st',
    Concurrent.run Demo.env Demo.post_bioconda Demo.post_bioconda
      [false; true; true; false; false; true]
      Concurrent.AtAssertUser Concurrent.AtAssertUser (Demo.state ∅)
      = (Concurrent.Finished o1, Concurrent.Finished o2, st')
    ∧ (o1 = Return tt ∧ status_of o2 = Some HTTP_409_CONFLICT
       ∨ status_of o1 = Some HTTP_409_CONFLICT ∧ o2 = Return tt)
    ∧ count_channels "bioconda" (db st') = 1%nat.
Proof.
  destruct (post_channel_twice_one_success_one_conflict Demo.env
              Demo.post_bioconda Demo.post_bioconda
              (Demo.b "alice's sixteen!") (Demo.b "alice's sixteen!")
              (Demo.state ∅)) as [H _].
  - reflexivity.
  - reflexivity.
  - reflexivity.
  - reflexivity.
  - apply (H [false; true; true; false; false; true]); vm_compute; lia.
Defined.

Lemma created_channel_and_package_have_owner_witness :
  (∃ user_id,
     {| db_models.ChannelMember.channel_name := "bioconda";
        db_models.ChannelMember.user_id := user_id;
        db_models.ChannelMember.role := OWNER |}
       ∈ channel_members
           (db (snd (post_channel Demo.env Demo.bioconda Demo.no_key
                       (Demo.state Demo.alice_session)))))
  ∧ (∃ user_id,
       {| db_models.PackageMember.channel_name := "conda-forge";
          db_models.PackageMember.package_name := "scipy";
          db_models.PackageMember.user_id := user_id;
          db_models.PackageMember.role := OWNER |}
         ∈ package_members
             (db (snd (post_package Demo.env "conda-forge" Demo.scipy
                         Demo.no_key (Demo.state Demo.alice_session))))).
Proof.
  destruct (created_channel_and_package_have_owner Demo.env) as [Hc Hp].
  split.
  - destruct (Hc Demo.bioconda Demo.no_key (Demo.state Demo.alice_session)
                (snd (post_channel Demo.env Demo.bioconda Demo.no_key
                        (Demo.state Demo.alice_session))))
      as (u & _ & _ & Hin); [reflexivity|].
    exists u. exact Hin.
  - destruct (Hp "conda-forge" Demo.scipy Demo.no_key
                (Demo.state Demo.alice_session)
                (snd (post_package Demo.env "conda-forge" Demo.scipy
                        Demo.no_key (Demo.state Demo.alice_session))))
      as (u & _ & _ & Hin); [reflexivity|].
    exists u. exact Hin.
Defined.

(** ** Uploads *)

Section upload_properties.

Context (env : Env).


Lemma split_cons (sep : ascii) (s : string) :
  ∃ p ps, split sep s = p :: ps.
Proof.
  induction s as [|c s (p & ps & IH)]; simpl; [by eauto|].
  destruct (Ascii.eqb c sep); [by eauto|]. rewrite IH. by eauto.
Qed.

Lemma assert_user_eq (auth : Rules) (st : State) :
  authorization.assert_user env auth st
    = (fst (authorization.assert_user env auth st), st).
Proof. by apply assert_user_stable. Qed.

Lemma for_each_app {A} (body : A → M unit) (xs ys : list A) (st : State) :
  for_each body (xs ++ ys) st
    = match for_each body xs st with
      | (Return _, st') => for_each body ys st'
      | other => other
      end.
Proof.
  revert st. induction xs as [|x xs IH]; intros st; simpl; [done|].
  unfold mbind, M_bind. by destruct (body x st) as [[[]| |] st'].
Qed.

(** A file at which the loop stops is where [post_file] stops: the
    files after it are not looked at and the index is not regenerated. *)
Lemma post_file_aborts channel_name package_name auth earlier f later
    st package st' o st'' :
  reaches env channel_name package_name auth earlier st package st' →
  post_file_body env package auth (channel_dir_of package) f st' = (o, st'') →
  (∀ a, o ≠ Return a) →
  post_file env channel_name package_name (earlier ++ f :: later) auth st
    = (o, st'').
Proof.
  intros (st1 & st2 & Hp & Ha & Hl) Hb Ho.
  unfold post_file, mbind, M_bind. rewrite Hp, Ha, for_each_app, Hl.
  simpl. unfold mbind, M_bind. rewrite Hb.
  destruct o as [a| |]; [by destruct (Ho a)|done|done].
Qed.

(** Reading the index of an archive does not touch the state. *)
Lemma load_index_eq (f : UploadFile) (st : State) :
  load_index env f st = (fst (load_index env f st), st).
Proof.
  unfold load_index. destruct (tarfile_open env _); [|done].
  destruct (getmember _ _) as [[content|]|]; try done.
  by destruct (json_load env content).
Qed.

(** The loop body on a file that fails the check of the names. *)
Lemma post_file_body_mismatch package auth channel_dir f info st :
  load_index env f st = (Return info, st) →
  hd "" (split "-" (filename f)) ≠ db_models.Package.name package
  ∨ (∃ v, getitem info "name" = Return v
          ∧ ne_str v (db_models.Package.name package) = true) →
  post_file_body env package auth channel_dir f st
    = (HTTPException HTTP_400_BAD_REQUEST None, st).
Proof.
  intros Hload Hm. unfold post_file_body, mbind, M_bind. rewrite Hload.
  destruct (split_cons "-" (filename f)) as (p & ps & Hs).
  rewrite Hs in *. simpl in Hm. case_bool_decide as Hp; simpl; [|done].
  destruct Hm as [?|(v & Hv & Hne)]; [done|].
  rewrite Hv. unfold lift. simpl. by rewrite Hne.
Qed.

(** The loop body on a file whose index cannot be read. *)
Lemma post_file_body_unreadable package auth channel_dir f e st :
  fst (load_index env f st) = Raised e →
  post_file_body env package auth channel_dir f st = (Raised e, st).
Proof.
  intros Hload. unfold post_file_body, mbind, M_bind.
  by rewrite load_index_eq, Hload.
Qed.


(** The loop body makes no call that leaves the process, and it removes
    no version row: rows are only ever added at the end. *)
Lemma post_file_body_frame package auth channel_dir f st :
  trace (post_file_body env package auth channel_dir f st).2 = trace st
  ∧ package_versions (db st)
      `prefix_of`
      package_versions
        (db (post_file_body env package auth channel_dir f st).2).
Proof.
  unfold post_file_body, mbind, M_bind. rewrite load_index_eq.
  destruct (load_index env f st).1 as [info| |]; try done.
  destruct (split "-" (filename f)) as [|p ps]; [done|].
  case_bool_decide; simpl; [|done].
  destruct (getitem info "name") as [v| |]; simpl; try done.
  destruct (ne_str v _); simpl; [done|].
  destruct (getitem info "subdir") as [platform| |]; simpl; try done.
  rewrite assert_user_eq.
  destruct (authorization.assert_user _ _ _).1 as [u| |]; simpl; try done.
  destruct (getitem info "version"); simpl; try done.
  destruct (getitem info "build_number"); simpl; try done.
  destruct (getitem info "build"); simpl; try done.
  unfold dao, Dao.create_version. simpl.
  destruct (existsb _ _); simpl; [done|].
  split; [done|]. by apply prefix_app_r.
Qed.

Lemma for_each_frame package auth channel_dir fs st :
  trace (for_each (post_file_body env package auth channel_dir) fs st).2
    = trace st
  ∧ package_versions (db st)
      `prefix_of`
      package_versions
        (db (for_each (post_file_body env package auth channel_dir)
               fs st).2).
Proof.
  revert st. induction fs as [|f fs IH]; intros st; simpl; [done|].
  unfold mbind, M_bind.
  pose proof (post_file_body_frame package auth channel_dir f st) as [Ht Hv].
  destruct (post_file_body _ _ _ _ _ _) as [[[]| |] st']; simpl in *;
    try done.
  destruct (IH st') as [Ht' Hv']. split; [congruence|by etrans].
Qed.

(** C2, as amended: for a file that [post_file] has come to.  When the
    part of its name before the first [-] is not the name of the package,
    the request fails there and nothing is stored for the file, neither a
    version row nor a file, whatever the archive holds; the failure is
    400 when the index of the archive could be read.  When the index was
    read and the name it declares is not the name of the package, the
    request fails with 400 and nothing is stored either. *)
Theorem post_file_name_mismatch_persists_nothing
    channel_name package_name auth earlier f later st package st' :
  reaches env channel_name package_name auth earlier st package st' →
  (hd "" (split "-" (filename f)) ≠ db_models.Package.name package →
   ∃ o,
     post_file env channel_name package_name (earlier ++ f :: later) auth st
       = (o, st')
     ∧ (∀ a, o ≠ Return a)
     ∧ (∀ info, load_index env f st' = (Return info, st') →
                o = HTTPException HTTP_400_BAD_REQUEST None))
  ∧ (∀ info v,
       load_index env f st' = (Return info, st') →
       getitem info "name" = Return v →
       ne_str v (db_models.Package.name package) = true →
       post_file env channel_name package_name (earlier ++ f :: later)
         auth st
         = (HTTPException HTTP_400_BAD_REQUEST None, st')).
Proof.
  intros Hr. split.
  - intros Hp.
    destruct (load_index env f st').1 as [info| |] eqn:Hl.
    + exists (HTTPException HTTP_400_BAD_REQUEST None).
      split; [|by split].
      eapply post_file_aborts; [done| |done].
      apply (post_file_body_mismatch _ _ _ _ info); [|by left].
      by rewrite load_index_eq, Hl.
    + exfalso. revert Hl. unfold load_index.
      destruct (tarfile_open env _); [|done].
      destruct (getmember _ _) as [[content|]|]; try done.
      by destruct (json_load env content).
    + exists (Raised e). split; [|split; [done|]].
      * eapply post_file_aborts; [done| |done].
        by apply post_file_body_unreadable.
      * intros info Hi. rewrite Hi in Hl. done.
  - intros info v Hl Hv Hne.
    eapply post_file_aborts; [done| |done].
    apply (post_file_body_mismatch _ _ _ _ info); [done|]. right. eauto.
Qed.



(** C4, as amended: for a request that has passed the checks before the
    loop.  When every file of the batch went through the loop, the
    indexing tool is run on the storage directory of the channel, once
    and before the handler returns; the handler does not look at its
    return code, and fails only when the tool cannot be started.  When a
    file stops the loop, the request ends there with the failure of the
    file and the tool is not run.  In both cases the database is the one
    the loop left: the versions recorded are kept. *)
Theorem post_file_index_regeneration
    channel_name package_name auth files st package st' :
  reaches env channel_name package_name auth [] st package st' →
  let loop :=
    for_each (post_file_body env package auth (channel_dir_of package))
      files st' in
  let result := post_file env channel_name package_name files auth st in
  let argv := ["conda"; "index"; channel_dir_of package] in
  package_versions (db st') `prefix_of` package_versions (db loop.2)
  ∧ db result.2 = db loop.2
  ∧ match loop.1 with
    | Return _ =>
        trace result.2 = (trace st' ++ [SubprocessRun argv])%list
        ∧ result.1 = match subprocess_run env argv (fs loop.2) with
                     | Some _ => Return tt
                     | None => Raised FileNotFoundError
                     end
    | _ => result = loop ∧ trace result.2 = trace st'
    end.
Proof.
  intros (st1 & st2 & Hp & Ha & Hl) loop result argv.
  simpl in Hl. injection Hl as ->.
  destruct (for_each_frame package auth (channel_dir_of package) files st')
    as [Ht Hv].
  fold loop in Ht, Hv. split; [done|].
  subst result. unfold post_file, mbind, M_bind. rewrite Hp, Ha.
  fold loop. destruct loop as [[[]| |] stl]; simpl in *; try done.
  unfold subprocess_run_, mbind, M_bind. simpl. fold argv.
  destruct (subprocess_run env argv (fs stl)) as [[rc fs']|]; simpl;
    by rewrite Ht.
Qed.

End upload_properties.

Lemma post_file_name_mismatch_persists_nothing_witness :
  ∃ o,
    post_file Demo.env "conda-forge" "numpy" [Demo.misnamed_upload]
      Demo.no_key (Demo.state Demo.alice_session)
      = (o, Demo.state Demo.alice_session)
    ∧ o = HTTPException HTTP_400_BAD_REQUEST None.
Proof.
  destruct (post_file_name_mismatch_persists_nothing Demo.env
              "conda-forge" "numpy" Demo.no_key [] Demo.misnamed_upload []
              (Demo.state Demo.alice_session) Demo.numpy
              (Demo.state Demo.alice_session)) as [H _].
  - exists (Demo.state Demo.alice_session), (Demo.state Demo.alice_session).
    repeat split; vm_compute; reflexivity.
  - destruct H as (o & Ho & _ & Hbad).
    + vm_compute. discriminate.
    + exists o. split; [exact Ho|].
      apply (Hbad Demo.index_json). reflexivity.
Defined.

(** C2, as stated, fails on an upload for another package that is not an
    archive: the archive is read before the names are checked, and the
    request ends with [ReadError], not with 400. *)
Lemma post_file_misnamed_corrupt_upload_raises :
  hd "" (split "-" (filename Demo.corrupt_misnamed_upload)) ≠ "numpy"
  ∧ post_file Demo.env "conda-forge" "numpy" [Demo.corrupt_misnamed_upload]
      Demo.no_key (Demo.state Demo.alice_session)
    = (Raised ReadError, Demo.state Demo.alice_session).
Proof. split; [vm_compute; discriminate|reflexivity]. Qed.





Lemma post_file_index_regeneration_witness :
  trace (snd (post_file Demo.env "conda-forge" "numpy" [Demo.first_upload]
                Demo.no_key (Demo.state Demo.alice_session)))
  = [SubprocessRun ["conda"; "index"; "static/channels/conda-forge"]].
Proof.
  destruct (post_file_index_regeneration Demo.env "conda-forge" "numpy"
              Demo.no_key [Demo.first_upload]
              (Demo.state Demo.alice_session) Demo.numpy
              (Demo.state Demo.alice_session)) as (_ & _ & H).
  - exists (Demo.state Demo.alice_session), (Demo.state Demo.alice_session).
    repeat split; vm_compute; reflexivity.
  - vm_compute in H. destruct H as [H _]. vm_compute. exact H.
Defined.

(** C4, as stated, fails on a batch whose second file is refused: the first
    file is recorded, the request ends with 400, and the indexing tool has
    not been run. *)
Lemma post_file_aborted_batch_runs_no_index :
  let r :=
    post_file Demo.env "conda-forge" "numpy"
      [Demo.first_upload; Demo.misnamed_upload] Demo.no_key
      (Demo.state Demo.alice_session) in
  fst r = HTTPException HTTP_400_BAD_REQUEST None
  ∧ List.length (package_versions (db (snd r))) = 1%nat
  ∧ trace (snd r) = [].
Proof. repeat split; vm_compute; reflexivity. Qed.

(** ** API keys *)

Section api_key_properties.

Context (env : Env).

(** Every element of a list is in one of its groups, the group of its
    key. *)
Lemma groupby_key_in {A K : Type} `{EqDecision K} (key : A → K)
    (xs : list A) (x : A) :
  x ∈ xs → ∃ g, (key x, g) ∈ groupby key xs.
Proof.
  induction xs as [|y rest IH]; intros Hin; [by apply elem_of_nil in Hin|].
  simpl. apply elem_of_cons in Hin as [->|Hin].
  - destruct (groupby key rest) as [|[k g] gs].
    + exists [y]. by left.
    + case_decide as Hk.
      * exists (y :: g). rewrite Hk. by left.
      * exists [y]. by left.
  - destruct (IH Hin) as (g & Hg).
    destruct (groupby key rest) as [|[k g0] gs];
      [by apply elem_of_nil in Hg|].
    apply elem_of_cons in Hg as [[= <- <-]|Hg].
    + case_decide as Hk.
      * exists (y :: g). by left.
      * exists g. right. by left.
    + case_decide as Hk.
      * exists g. by right.
      * exists g. right. by right.
Qed.

(** The rows of the key stored last are among the rows of its owner. *)
Lemma member_key_rows_last user_id i ks k m ms :
  db_models.ApiKey.owner_id k = user_id →
  (m, ((i + List.length ks)%nat, k))
    ∈ Dao.member_key_rows user_id i (ks ++ [(k, m :: ms)]).
Proof.
  intros Ho. revert i. induction ks as [|[k' ms'] ks IH]; intros i; simpl.
  - rewrite bool_decide_eq_true_2 by done. rewrite Nat.add_0_r. by left.
  - apply elem_of_app. right.
    replace (i + S (List.length ks))%nat with (S i + List.length ks)%nat
      by lia.
    apply IH.
Qed.

(** C3, as amended: a successful [POST /api-keys] hands the secret it
    drew to the data access layer, which stores it with the caller as
    the owner, and returns nothing: the handler's result is [None].
    The secret is what [GET /api-keys] shows to its owner later, for a
    key with at least one role. *)
Theorem post_api_key_stores_secret_and_returns_nothing
    (api_key : rest_models.BaseApiKey.t) (auth : Rules) (st st' : State) :
  post_api_key env api_key auth st = (Return tt, st') →
  let secret := token_urlsafe env 32 (drawn st) in
  ∃ user_id,
    fst (authorization.assert_user env auth st) = Return user_id
    ∧ created_key st' = Some secret
    ∧ api_keys (db st')
      = (api_keys (db st) ++
           [({| db_models.ApiKey.key := secret;
                db_models.ApiKey.description :=
                  rest_models.BaseApiKey.description api_key;
                db_models.ApiKey.owner_id := user_id |},
             Dao.member_of_role <$> rest_models.BaseApiKey.roles api_key)])%list
    ∧ ∀ auth' st_later,
        db st_later = db st' →
        fst (authorization.assert_user env auth' st_later) = Return user_id →
        rest_models.BaseApiKey.roles api_key ≠ [] →
        ∃ listed entry,
          fst (get_api_keys env auth' st_later) = Return listed
          ∧ entry ∈ listed
          ∧ rest_models.ApiKey.key entry = secret.
Proof.
  unfold post_api_key, auth_assert_create_api_key_roles, mbind, M_bind.
  destruct (assert_create_api_key_roles env _ _ _ _) as [[]| |]; try done.
  rewrite (assert_user_stable env auth _ st) by done.
  destruct (authorization.assert_user env auth st).1 as [u| |] eqn:Hu;
    try done.
  unfold secrets_token_urlsafe, dao, Dao.create_api_key. simpl.
  intros [= <-]. exists u. simpl.
  split; [done|]. split; [|split; [done|]].
  - unfold created_key. simpl. by rewrite last_snoc.
  - intros auth' st_later Hdb Hu' Hroles.
    unfold get_api_keys, mbind, M_bind.
    rewrite (assert_user_stable env auth' _ st_later) by done.
    rewrite Hu'. unfold dao, Dao.get_api_keys. simpl.
    rewrite Hdb. simpl.
    destruct (rest_models.BaseApiKey.roles api_key) as [|r rs]; [done|].
    simpl.
    set (row := {| db_models.ApiKey.key := token_urlsafe env 32 (drawn st);
                   db_models.ApiKey.description :=
                     rest_models.BaseApiKey.description api_key;
                   db_models.ApiKey.owner_id := u |}).
    pose proof (member_key_rows_last u 0 (api_keys (db st)) row
                  (Dao.member_of_role r) (Dao.member_of_role <$> rs)
                  eq_refl) as Hin.
    apply (groupby_key_in snd) in Hin as (g & Hg). simpl in Hg.
    eexists _, _. split; [done|].
    split; [apply list_elem_of_fmap; eexists; split; [|exact Hg]|]; done.
Qed.

End api_key_properties.

Lemma post_api_key_stores_secret_and_returns_nothing_witness :
  created_key
    (snd (post_api_key Demo.env Demo.new_key Demo.no_key
            (Demo.state Demo.alice_session))) = Some "A".
Proof.
  destruct (post_api_key_stores_secret_and_returns_nothing Demo.env
              Demo.new_key Demo.no_key (Demo.state Demo.alice_session)
              (snd (post_api_key Demo.env Demo.new_key Demo.no_key
                      (Demo.state Demo.alice_session))))
    as (u & _ & H & _).
  - reflexivity.
  - exact H.
Defined.

(** C3, as stated, fails: no reading of the response of [post_api_key]
    gives the secret of the key created.  Two requests that differ in the
    secret drawn have the same response. *)
Lemma post_api_key_response_without_secret :
  ¬ ∃ read : Outcome unit → option string,
      ∀ st,
        fst (post_api_key Demo.env Demo.new_key Demo.no_key st) = Return tt →
        read (fst (post_api_key Demo.env Demo.new_key Demo.no_key st))
          = created_key
              (snd (post_api_key Demo.env Demo.new_key Demo.no_key st)).
Proof.
  intros (read & H).
  pose proof (H (Demo.state Demo.alice_session) eq_refl) as H0.
  pose proof (H (with_draw (Demo.state Demo.alice_session)) eq_refl) as H1.
  vm_compute in H0, H1. congruence.
Qed.

(** * Further properties of the handlers *)

(** ** Sessions *)

Section more_session_properties.

Context (env : Env).

Lemma dao_state {A} (f : DB → Outcome A * DB) (st : State) :
  snd (f (db st)) = db st → dao f st = (fst (f (db st)), st).
Proof.
  unfold dao. destruct (f (db st)) as [o d]. simpl. intros ->.
  by destruct st.
Qed.

(** X1: on a session of the provider [github] whose token the provider
    accepts, the revocation check asks the provider once, for the token of
    the session, and leaves the session as it is. *)
Theorem check_token_revocation_valid_token (st : State) :
  session st !! "identity_provider" = Some "github" →
  validate_token env (session st !! "token") = true →
  check_token_revocation env st
    = (Return tt, with_event (ValidateToken (session st !! "token")) st).
Proof.
  intros Hp Hv.
  unfold check_token_revocation, session_get, await_validate_token,
    mbind, M_bind, modify, mret, M_ret.
  rewrite Hp. simpl. by rewrite Hv.
Qed.

(** X2: [GET /me] reads only: the database and the files are those of
    before, whatever the request.  The session is either left as it is or
    logged out, and when it is logged out the answer is 401. *)
Theorem me_reads_only (auth : Rules) (st : State) :
  db (me env auth st).2 = db st
  ∧ fs (me env auth st).2 = fs st
  ∧ (session (me env auth st).2 = session st
     ∨ session (me env auth st).2 = session (logout st).2
       ∧ status_of (me env auth st).1 = Some HTTP_401_UNAUTHORIZED).
Proof.
  unfold me, check_token_revocation, session_get, await_validate_token,
    mbind, M_bind, modify, mret, M_ret.
  destruct (is_github _); simpl.
  - destruct (validate_token env _); simpl.
    + rewrite (assert_user_stable env auth _ st) by done.
      destruct (authorization.assert_user env auth st).1; simpl; auto.
    + auto.
  - rewrite (assert_user_stable env auth _ st) by done.
    destruct (authorization.assert_user env auth st).1; simpl; auto.
Qed.

(** X3: after [dummy_login] for a user of the database, a [/me] request
    with the session it left shows the profile of that user, provided the
    text of a UUID reads back as the bytes it was made from. *)
Theorem dummy_login_then_me (username s : string)
    (user : db_models.User.t) (st : State) :
  fst (Dao.get_user_by_username username (db st)) = Return (Some user) →
  fst (Dao.get_profile (db_models.User.id user) (db st))
    = Return (Some (db_models.User.profile user)) →
  uuid_str env (db_models.User.id user) = Some s →
  uuid_bytes env s = Some (db_models.User.id user) →
  ∃ st',
    dummy_login env username st = (Return "/static/index.html", st')
    ∧ session st' !! "identity_provider" = Some "dummy"
    ∧ session st' !! "token" = None
    ∧ me env {| API_key := None |} st'
      = (Return (Some (db_models.User.profile user)), st').
Proof.
  intros Hu Hp Hs Hb. eexists. split.
  - unfold dummy_login, mbind, M_bind. rewrite dao_state by done.
    rewrite Hu. simpl. rewrite Hs. reflexivity.
  - split; [apply lookup_insert_eq|]. split.
    + simpl. rewrite !lookup_insert_ne by done. apply lookup_delete_eq.
    + unfold me, mbind, M_bind.
      rewrite check_token_revocation_skip
        by (simpl; by rewrite lookup_insert_eq).
      unfold authorization.assert_user. simpl.
      rewrite lookup_insert_ne by done. rewrite lookup_insert_eq. simpl.
      rewrite Hb. unfold dao. simpl.
      destruct (Dao.get_profile _ _) as [o d] eqn:Hd.
      unfold Dao.get_profile in Hd, Hp. simpl in Hp. injection Hd as <- <-.
      injection Hp as ->. reflexivity.
Qed.

(** X4: [dummy_login] for a name no user has logs the session out before it
    fails on the missing user: the request ends with [AttributeError] and
    the session has lost its three fields. *)
Theorem dummy_login_unknown_user (username : string) (st : State) :
  fst (Dao.get_user_by_username username (db st)) = Return None →
  dummy_login env username st = (Raised AttributeError, snd (logout st)).
Proof.
  intros Hu. unfold dummy_login, mbind, M_bind.
  rewrite dao_state by done. by rewrite Hu.
Qed.

End more_session_properties.

Lemma check_token_revocation_valid_token_witness :
  check_token_revocation Examples.env (Demo.state Demo.github_session)
  = (Return tt,
     with_event (ValidateToken (Some "gho_token"))
       (Demo.state Demo.github_session)).
Proof.
  apply (check_token_revocation_valid_token Examples.env
           (Demo.state Demo.github_session)); reflexivity.
Defined.

Lemma dummy_login_then_me_witness :
  ∃ st',
    dummy_login Demo.env "alice" (Demo.state Demo.github_session)
      = (Return "/static/index.html", st')
    ∧ me Demo.env {| API_key := None |} st'
      = (Return (Some (db_models.User.profile Demo.alice)), st').
Proof.
  destruct (dummy_login_then_me Demo.env "alice" "alice's sixteen!"
              Demo.alice (Demo.state Demo.github_session))
    as (st' & H1 & _ & _ & H2).
  - reflexivity.
  - reflexivity.
  - reflexivity.
  - reflexivity.
  - exists st'. split; [exact H1|exact H2].
Defined.

Lemma dummy_login_unknown_user_witness :
  dummy_login Demo.env "bob" (Demo.state Demo.github_session)
  = (Raised AttributeError, Demo.state ∅).
Proof.
  rewrite (dummy_login_unknown_user Demo.env "bob"
             (Demo.state Demo.github_session)) by reflexivity.
  vm_compute. reflexivity.
Defined.

(** ** Channels and packages *)

Section more_channel_properties.

Context (env : Env).

Lemma find_app_none {A} (f : A → bool) (l l' : list A) :
  find f l = None → find f (l ++ l') = find f l'.
Proof.
  induction l as [|x l IH]; simpl; [done|].
  by destruct (f x).
Qed.

Lemma find_channel_name (name : string) (d : DB) (c : db_models.Channel.t) :
  Dao.find_channel name d = Some c → db_models.Channel.name c = name.
Proof.
  intros [_ H]%find_some. by apply bool_decide_eq_true in H.
Qed.

(** X5: a [POST /channels] request that fails, whatever the failure,
    leaves the state as it was: no channel and no member row is added. *)
Theorem post_channel_failure_changes_nothing
    (new_channel : rest_models.Channel.t) (auth : Rules)
    (st st' : State) (o : Outcome unit) :
  post_channel env new_channel auth st = (o, st') →
  o ≠ Return tt →
  st' = st.
Proof.
  unfold post_channel, mbind, M_bind.
  rewrite (assert_user_stable env auth _ st) by done.
  destruct (authorization.assert_user env auth st).1 as [u| |];
    [|by intros [= <- <-]..].
  rewrite dao_state by done. simpl.
  destruct (Dao.find_channel _ _) eqn:Hf; [by intros [= <- <-]|].
  unfold dao, Dao.create_channel. rewrite Hf.
  intros [= <- <-]. done.
Qed.

(** X6: a [POST /channels/{channel_name}/packages] request that fails,
    whatever the failure, leaves the state as it was. *)
Theorem post_package_failure_changes_nothing (channel_name : string)
    (new_package : rest_models.Package.t) (auth : Rules)
    (st st' : State) (o : Outcome unit) :
  post_package env channel_name new_package auth st = (o, st') →
  o ≠ Return tt →
  st' = st.
Proof.
  unfold post_package, get_channel_or_fail, mbind, M_bind.
  rewrite dao_state by done. simpl.
  destruct (Dao.find_channel channel_name (db st)) as [c|] eqn:Hc;
    [|by intros [= <- <-]].
  simpl. rewrite (assert_user_stable env auth _ st) by done.
  destruct (authorization.assert_user env auth st).1 as [u| |];
    [|by intros [= <- <-]..].
  simpl. rewrite with_db_same, (find_channel_name _ _ _ Hc).
  destruct (Dao.find_package _ _ _) eqn:Hp; [by intros [= <- <-]|].
  unfold dao, Dao.create_package. rewrite Hc, Hp.
  intros [= <- <-]. done.
Qed.

(** X7: a channel that [POST /channels] has created is what
    [GET /channels/{name}] returns for its name, with the description it
    was created with. *)
Theorem post_channel_then_get_channel
    (new_channel : rest_models.Channel.t) (auth : Rules) (st st' : State) :
  post_channel env new_channel auth st = (Return tt, st') →
  get_channel (rest_models.Channel.name new_channel) st'
    = (Return
         {| db_models.Channel.name := rest_models.Channel.name new_channel;
            db_models.Channel.description :=
              rest_models.Channel.description new_channel |},
       st').
Proof.
  unfold post_channel, mbind, M_bind.
  rewrite (assert_user_stable env auth _ st) by done.
  destruct (authorization.assert_user env auth st).1 as [u| |]; [|done..].
  rewrite dao_state by done. simpl.
  destruct (Dao.find_channel _ _) eqn:Hf; [done|].
  unfold dao at 1, Dao.create_channel. rewrite Hf. intros [= <-].
  unfold get_channel, get_channel_or_fail, mbind, M_bind, dao,
    Dao.get_channel, Dao.find_channel. simpl.
  unfold Dao.find_channel in Hf. rewrite (find_app_none _ _ _ Hf). simpl.
  by rewrite bool_decide_eq_true_2.
Qed.

(** X8: a package that [POST /channels/{channel_name}/packages] has
    created is what [GET /channels/{channel_name}/packages/{name}] returns
    for its name: it has the description it was created with and belongs
    to the channel of the request. *)
Theorem post_package_then_get_package (channel_name : string)
    (new_package : rest_models.Package.t) (auth : Rules) (st st' : State) :
  post_package env channel_name new_package auth st = (Return tt, st') →
  ∃ channel,
    get_channel channel_name st = (Return channel, st)
    ∧ db_models.Channel.name channel = channel_name
    ∧ get_package channel_name (rest_models.Package.name new_package) st'
      = (Return
           {| db_models.Package.channel := channel;
              db_models.Package.name := rest_models.Package.name new_package;
              db_models.Package.description :=
                rest_models.Package.description new_package |},
         st').
Proof.
  unfold post_package, get_channel, get_channel_or_fail, mbind, M_bind.
  rewrite dao_state by done. simpl.
  destruct (Dao.find_channel channel_name (db st)) as [c|] eqn:Hc; [|done].
  simpl. pose proof (find_channel_name _ _ _ Hc) as Hn.
  rewrite (assert_user_stable env auth _ st) by done.
  destruct (authorization.assert_user env auth st).1 as [u| |]; [|done..].
  simpl. rewrite with_db_same, Hn.
  destruct (Dao.find_package _ _ _) eqn:Hp; [done|].
  unfold dao at 1, Dao.create_package. rewrite Hc, Hp. intros [= <-].
  exists c. split; [done|]. split; [done|].
  unfold get_package, get_package_or_fail, get_channel_or_fail, mbind,
    M_bind, dao, Dao.get_channel, Dao.get_package. simpl.
  change (Dao.find_channel channel_name (Dao.set_packages _ _ (db st)))
    with (Dao.find_channel channel_name (db st)).
  rewrite Hc. simpl. rewrite Hn.
  unfold Dao.find_package in *. simpl.
  rewrite (find_app_none _ _ _ Hp). simpl.
  by rewrite Hn, !bool_decide_eq_true_2.
Qed.

End more_channel_properties.

Lemma post_channel_failure_changes_nothing_witness :
  snd (post_channel Demo.env Demo.bioconda Demo.no_key (Demo.state ∅))
  = Demo.state ∅.
Proof.
  apply (post_channel_failure_changes_nothing Demo.env Demo.bioconda
           Demo.no_key (Demo.state ∅) _
           (HTTPException HTTP_401_UNAUTHORIZED (Some "Not logged in"))).
  - reflexivity.
  - discriminate.
Defined.

Lemma post_package_failure_changes_nothing_witness :
  snd (post_package Demo.env "bioconda" Demo.scipy Demo.no_key
         (Demo.state Demo.alice_session))
  = Demo.state Demo.alice_session.
Proof.
  apply (post_package_failure_changes_nothing Demo.env "bioconda" Demo.scipy
           Demo.no_key (Demo.state Demo.alice_session) _
           (HTTPException HTTP_404_NOT_FOUND
              (Some "Channel bioconda not found"))).
  - reflexivity.
  - discriminate.
Defined.

Lemma post_channel_then_get_channel_witness :
  fst (get_channel "bioconda"
         (snd (post_channel Demo.env Demo.bioconda Demo.no_key
                 (Demo.state Demo.alice_session))))
  = Return {| db_models.Channel.name := "bioconda";
              db_models.Channel.description := "bioinformatics" |}.
Proof.
  exact (f_equal fst
           (post_channel_then_get_channel Demo.env Demo.bioconda Demo.no_key
              (Demo.state Demo.alice_session)
              (snd (post_channel Demo.env Demo.bioconda Demo.no_key
                      (Demo.state Demo.alice_session)))
              eq_refl)).
Defined.

Lemma post_package_then_get_package_witness :
  ∃ channel,
    fst (get_package "conda-forge" "scipy"
           (snd (post_package Demo.env "conda-forge" Demo.scipy Demo.no_key
                   (Demo.state Demo.alice_session))))
    = Return {| db_models.Package.channel := channel;
                db_models.Package.name := "scipy";
                db_models.Package.description := "science" |}.
Proof.
  destruct (post_package_then_get_package Demo.env "conda-forge" Demo.scipy
              Demo.no_key (Demo.state Demo.alice_session)
              (snd (post_package Demo.env "conda-forge" Demo.scipy
                      Demo.no_key (Demo.state Demo.alice_session))))
    as (c & _ & _ & H); [reflexivity|].
  exists c. exact (f_equal fst H).
Defined.

(** ** Uploads *)

Section more_upload_properties.

Context (env : Env).

Lemma get_package_or_fail_state (channel_name package_name : string)
    (st : State) :
  get_package_or_fail channel_name package_name st
    = (fst (get_package_or_fail channel_name package_name st), st).
Proof.
  unfold get_package_or_fail, get_channel_or_fail, mbind, M_bind.
  rewrite dao_state by done. simpl.
  destruct (Dao.find_channel _ _); [|done]. simpl.
  rewrite with_db_same. by destruct (Dao.find_package _ _ _).
Qed.

(** X9: when the package of the request is not found, or the caller may
    not upload to it, [post_file] ends with that failure before it looks at
    a file: the state is as before, whatever the files are. *)
Theorem post_file_refused_before_loop (channel_name package_name : string)
    (files : list UploadFile) (auth : Rules) (st : State) :
  (∀ c d,
     fst (get_package_or_fail channel_name package_name st)
       = HTTPException c d →
     post_file env channel_name package_name files auth st
       = (HTTPException c d, st))
  ∧ (∀ package o,
       fst (get_package_or_fail channel_name package_name st)
         = Return package →
       assert_upload_file env auth (session st) (db st)
         (db_models.Channel.name (db_models.Package.channel package))
         (db_models.Package.name package) = o →
       (∀ a, o ≠ Return a) →
       post_file env channel_name package_name files auth st = (o, st)).
Proof.
  split.
  - intros c d H. unfold post_file, mbind, M_bind.
    by rewrite get_package_or_fail_state, H.
  - intros package o H Ho Hn. unfold post_file, mbind, M_bind.
    rewrite get_package_or_fail_state, H.
    unfold auth_assert_upload_file. rewrite Ho.
    destruct o as [a| |]; [by destruct (Hn a)|done|done].
Qed.

Lemma only_adds_versions_refl (d : DB) : only_adds_versions d d.
Proof. by repeat split. Qed.

Lemma only_adds_versions_trans (d1 d2 d3 : DB) :
  only_adds_versions d1 d2 → only_adds_versions d2 d3 →
  only_adds_versions d1 d3.
Proof.
  intros (?&?&?&?&?&?&?) (?&?&?&?&?&?&?).
  repeat split; try congruence. by etrans.
Qed.

(** The loop body adds at most a version row to the database and leaves
    the session alone. *)
Lemma post_file_body_only_adds package auth channel_dir f st :
  only_adds_versions (db st)
    (db (post_file_body env package auth channel_dir f st).2)
  ∧ session (post_file_body env package auth channel_dir f st).2
    = session st.
Proof.
  unfold post_file_body, mbind, M_bind. rewrite load_index_eq.
  destruct (load_index env f st).1 as [info| |];
    try (split; [apply only_adds_versions_refl|done]).
  destruct (split "-" (filename f)) as [|p ps];
    [split; [apply only_adds_versions_refl|done]|].
  case_bool_decide; simpl;
    [|split; [apply only_adds_versions_refl|done]].
  destruct (getitem info "name") as [v| |]; simpl;
    try (split; [apply only_adds_versions_refl|done]).
  destruct (ne_str v _); simpl;
    [split; [apply only_adds_versions_refl|done]|].
  destruct (getitem info "subdir") as [platform| |]; simpl;
    try (split; [apply only_adds_versions_refl|done]).
  rewrite assert_user_eq.
  destruct (authorization.assert_user _ _ _).1 as [u| |]; simpl;
    try (split; [apply only_adds_versions_refl|done]).
  destruct (getitem info "version"); simpl;
    try (split; [apply only_adds_versions_refl|done]).
  destruct (getitem info "build_number"); simpl;
    try (split; [apply only_adds_versions_refl|done]).
  destruct (getitem info "build"); simpl;
    try (split; [apply only_adds_versions_refl|done]).
  unfold dao, Dao.create_version. simpl.
  destruct (existsb _ _); simpl;
    [split; [apply only_adds_versions_refl|done]|].
  split; [|done]. repeat split; try done. by apply prefix_app_r.
Qed.

Lemma for_each_only_adds package auth channel_dir fs st :
  only_adds_versions (db st)
    (db (for_each (post_file_body env package auth channel_dir) fs st).2)
  ∧ session (for_each (post_file_body env package auth channel_dir) fs st).2
    = session st.
Proof.
  revert st. induction fs as [|f fs IH]; intros st; simpl.
  { split; [apply only_adds_versions_refl|done]. }
  unfold mbind, M_bind.
  pose proof (post_file_body_only_adds package auth channel_dir f st)
    as [Hd Hs].
  destruct (post_file_body _ _ _ _ _ _) as [[[]| |] st']; simpl in *;
    try done.
  destruct (IH st') as [Hd' Hs']. split; [|congruence].
  by eapply only_adds_versions_trans.
Qed.

(** X10: whatever the request and however it ends, [post_file] only adds
    version rows at the end of their table: the rows that were there keep
    their place, every other table is as before, and so is the session. *)
Theorem post_file_only_adds_versions (channel_name package_name : string)
    (files : list UploadFile) (auth : Rules) (st : State) :
  only_adds_versions (db st)
    (db (post_file env channel_name package_name files auth st).2)
  ∧ session (post_file env channel_name package_name files auth st).2
    = session st.
Proof.
  unfold post_file, mbind, M_bind. rewrite get_package_or_fail_state.
  destruct (get_package_or_fail _ _ _).1 as [package| |];
    try (split; [apply only_adds_versions_refl|done]).
  unfold auth_assert_upload_file.
  destruct (assert_upload_file env _ _ _ _ _) as [[]| |];
    try (split; [apply only_adds_versions_refl|done]).
  pose proof (for_each_only_adds package auth (channel_dir_of package)
                files st) as [Hd Hs].
  destruct (for_each _ _ _) as [[[]| |] st']; simpl in *; try done.
  unfold subprocess_run_, mbind, M_bind. simpl.
  by destruct (subprocess_run env _ _) as [[rc fs']|].
Qed.

(** X11: when the loop body returns for a file, the archive is stored and
    the version is recorded: the file at the destination, under the name
    the client gave, holds the bytes uploaded, and the row added last
    carries that name, the metadata of the archive and the caller as the
    uploader. *)
Theorem post_file_body_stores_and_records package auth channel_dir f
    (st st' : State) :
  post_file_body env package auth channel_dir f st = (Return tt, st') →
  ∃ info platform version build_number build_string user_id,
    load_index env f st = (Return info, st)
    ∧ getitem info "subdir" = Return platform
    ∧ getitem info "version" = Return version
    ∧ getitem info "build_number" = Return build_number
    ∧ getitem info "build" = Return build_string
    ∧ fst (authorization.assert_user env auth st) = Return user_id
    ∧ files (fs st')
        !! ((channel_dir +:+ "/" +:+ format env platform +:+ "/")
              +:+ "/" +:+ filename f)
      = Some (file f)
    ∧ package_versions (db st')
      = (package_versions (db st) ++
           [{| db_models.PackageVersion.channel_name :=
                 db_models.Channel.name (db_models.Package.channel package);
               db_models.PackageVersion.package_name :=
                 db_models.Package.name package;
               db_models.PackageVersion.platform := platform;
               db_models.PackageVersion.version := version;
               db_models.PackageVersion.build_number := build_number;
               db_models.PackageVersion.build_string := build_string;
               db_models.PackageVersion.filename := filename f;
               db_models.PackageVersion.info := json_dumps env info;
               db_models.PackageVersion.uploader_id := user_id |}])%list.
Proof.
  unfold post_file_body, mbind, M_bind.
  pose proof (load_index_eq env f st) as Hload. rewrite Hload.
  destruct (load_index env f st).1 as [info| |]; [|done..].
  destruct (split "-" (filename f)) as [|p ps]; [done|].
  case_bool_decide; simpl; [|done].
  destruct (getitem info "name") as [v| |]; simpl; [|done..].
  destruct (ne_str v _); simpl; [done|].
  destruct (getitem info "subdir") as [platform| |] eqn:Hsub; simpl;
    [|done..].
  rewrite (assert_user_stable env auth _ st) by done.
  destruct (authorization.assert_user env auth st).1 as [u| |] eqn:Hu;
    simpl; [|done..].
  destruct (getitem info "version") as [version| |] eqn:Hver; simpl;
    [|done..].
  destruct (getitem info "build_number") as [number| |] eqn:Hnum; simpl;
    [|done..].
  destruct (getitem info "build") as [build| |] eqn:Hbuild; simpl;
    [|done..].
  unfold dao, Dao.create_version. simpl.
  destruct (existsb _ _); simpl; [done|].
  intros [= <-]. exists info, platform, version, number, build, u.
  do 6 (split; [done|]). split; [|done].
  simpl. apply lookup_insert_eq.
Qed.


Lemma occurs_hd_split (sep : ascii) (s : string) :
  occurs sep (hd "" (split sep s)) = false
  ∧ (s = hd "" (split sep s)
     ∨ ∃ rest, s = hd "" (split sep s) +:+ String sep rest).
Proof.
  induction s as [|c s [IHo IHs]]; simpl; [by auto|].
  destruct (Ascii.eqb c sep) eqn:Hc.
  - apply Ascii.eqb_eq in Hc as ->. simpl. split; [done|]. right. by eexists.
  - destruct (split_cons sep s) as (p & ps & Hs). rewrite Hs in *.
    simpl in *. rewrite Hc, IHo. split; [done|].
    destruct IHs as [->|[rest ->]]; [by left|right; by eexists].
Qed.

(** X13: the part of a file name that is compared with the name of the
    package is the text before the first [-]: it is [p] exactly when [p]
    has no [-] and the name is [p] or goes on with a [-] after [p]. *)
Theorem split_head_spec (s p : string) :
  hd "" (split "-" s) = p
  ↔ occurs "-" p = false ∧ (s = p ∨ ∃ rest, s = p +:+ String "-" rest).
Proof.
  split.
  - intros <-. apply occurs_hd_split.
  - revert s. induction p as [|c p IH]; intros s [Ho Hs].
    + destruct Hs as [->|[rest ->]]; [done|]. simpl. done.
    + simpl in Ho. apply orb_false_iff in Ho as [Hc Ho].
      assert (∃ s', s = String c s'
                    ∧ (s' = p ∨ ∃ rest, s' = p +:+ String "-" rest))
        as (s' & -> & Hs').
      { destruct Hs as [->|[rest ->]]; eexists; (split; [done|]); eauto. }
      simpl. rewrite Hc.
      destruct (split_cons "-" s') as (q & qs & Hq).
      specialize (IH s' (conj Ho Hs')). rewrite Hq in *. simpl in *.
      by rewrite IH.
Qed.

End more_upload_properties.

Lemma post_file_refused_before_loop_witness :
  post_file Demo.env "conda-forge" "scipy" [Demo.first_upload] Demo.no_key
    (Demo.state Demo.alice_session)
  = (HTTPException HTTP_404_NOT_FOUND
       (Some "Package conda-forge/scipy not found"),
     Demo.state Demo.alice_session)
  ∧ post_file Examples.env "conda-forge" "numpy" [Demo.first_upload]
      Demo.no_key (Demo.state Demo.alice_session)
    = (HTTPException 403 (Some "No permission"),
       Demo.state Demo.alice_session).
Proof.
  split.
  - apply (post_file_refused_before_loop Demo.env "conda-forge" "scipy"
             [Demo.first_upload] Demo.no_key (Demo.state Demo.alice_session)).
    reflexivity.
  - apply (proj2 (post_file_refused_before_loop Examples.env "conda-forge"
                    "numpy" [Demo.first_upload] Demo.no_key
                    (Demo.state Demo.alice_session)) Demo.numpy).
    + reflexivity.
    + reflexivity.
    + discriminate.
Defined.

Lemma post_file_body_stores_and_records_witness :
  files
    (fs (snd (post_file_body Demo.env Demo.numpy Demo.no_key
                "static/channels/conda-forge" Demo.first_upload
                (Demo.state Demo.alice_session))))
    !! "static/channels/conda-forge/linux-64//numpy-1.18.1-py38_0.tar.bz2"
  = Some (file Demo.first_upload).
Proof.
  destruct (post_file_body_stores_and_records Demo.env Demo.numpy Demo.no_key
              "static/channels/conda-forge" Demo.first_upload
              (Demo.state Demo.alice_session)
              (snd (post_file_body Demo.env Demo.numpy Demo.no_key
                      "static/channels/conda-forge" Demo.first_upload
                      (Demo.state Demo.alice_session))))
    as (info & platform & ? & ? & ? & ? & Hl & Hs & _ & _ & _ & _ & Hf & _).
  - vm_compute. reflexivity.
  - vm_compute in Hl. injection Hl as <-.
    vm_compute in Hs. injection Hs as <-. exact Hf.
Defined.


Lemma split_head_spec_witness :
  hd "" (split "-" "numpy-1.18.1-py38_0.tar.bz2") = "numpy".
Proof.
  apply (proj2 (split_head_spec "numpy-1.18.1-py38_0.tar.bz2" "numpy")).
  split; [reflexivity|]. right. by exists "1.18.1-py38_0.tar.bz2".
Defined.

(** ** API keys *)

Section more_api_key_properties.

Context (env : Env).

(** X14: a [POST /api-keys] request that fails leaves the state as it was:
    no secret is drawn and no key is stored. *)
Theorem post_api_key_failure_changes_nothing
    (api_key : rest_models.BaseApiKey.t) (auth : Rules)
    (st st' : State) (o : Outcome unit) :
  post_api_key env api_key auth st = (o, st') →
  o ≠ Return tt →
  st' = st.
Proof.
  unfold post_api_key, auth_assert_create_api_key_roles, mbind, M_bind.
  destruct (assert_create_api_key_roles env _ _ _ _) as [[]| |];
    [|by intros [= <- <-]..].
  rewrite (assert_user_stable env auth _ st) by done.
  destruct (authorization.assert_user env auth st).1 as [u| |];
    [|by intros [= <- <-]..].
  unfold secrets_token_urlsafe, dao, Dao.create_api_key. simpl.
  by intros [= <- <-].
Qed.

Lemma groupby_concat {A K : Type} `{EqDecision K} (key : A → K)
    (xs : list A) :
  List.concat (snd <$> groupby key xs) = xs.
Proof.
  induction xs as [|x rest IH]; [done|]. simpl.
  destruct (groupby key rest) as [|[k g] gs]; simpl in *.
  - by rewrite <- IH.
  - case_decide; simpl; by rewrite <- IH.
Qed.

Lemma groupby_nonempty {A K : Type} `{EqDecision K} (key : A → K)
    (xs : list A) :
  Forall (λ kg, kg.2 ≠ []) (groupby key xs).
Proof.
  induction xs as [|x rest IH]; [by constructor|]. simpl.
  destruct (groupby key rest) as [|[k g] gs].
  - by repeat constructor.
  - apply Forall_cons in IH as [Hg IH].
    case_decide; repeat (apply Forall_cons; split); simpl; done.
Qed.

(** X15: what [GET /api-keys] lists for a caller are the role rows of the
    caller's keys, each shown once and in their order: the roles of the
    entries, one entry after the other, are the rows the data access layer
    gave, and no entry is without a role.  The request changes nothing. *)
Theorem get_api_keys_lists_every_role (auth : Rules) (st : State)
    (listed : list rest_models.ApiKey.t) :
  fst (get_api_keys env auth st) = Return listed →
  ∃ user_id,
    fst (authorization.assert_user env auth st) = Return user_id
    ∧ List.concat (rest_models.ApiKey.roles <$> listed)
      = (role_of_member ∘ fst)
          <$> Dao.member_key_rows user_id 0 (api_keys (db st))
    ∧ Forall (λ entry, rest_models.ApiKey.roles entry ≠ []) listed
    ∧ snd (get_api_keys env auth st) = st.
Proof.
  unfold get_api_keys, mbind, M_bind.
  rewrite (assert_user_stable env auth _ st) by done.
  destruct (authorization.assert_user env auth st).1 as [u| |]; [|done..].
  rewrite dao_state by done. simpl. intros [= <-].
  exists u. split; [done|].
  set (rows := Dao.member_key_rows u 0 (api_keys (db st))).
  pose proof (groupby_nonempty snd rows) as Hne.
  split; [|split; [|done]].
  - rewrite <- (groupby_concat snd rows) at 2.
    clear Hne. induction (groupby snd rows) as [|[k g] gs IH]; [done|].
    simpl. rewrite fmap_app. f_equal; [|exact IH].
    apply list_fmap_ext. by intros i [m ?] _.
  - induction Hne as [|[k g] gs Hg _ IH]; constructor; [|exact IH].
    simpl in *. by destruct g.
Qed.

End more_api_key_properties.

Lemma post_api_key_failure_changes_nothing_witness :
  snd (post_api_key Examples.env Demo.new_key Demo.no_key
         (Demo.state Demo.alice_session))
  = Demo.state Demo.alice_session.
Proof.
  apply (post_api_key_failure_changes_nothing Examples.env Demo.new_key
           Demo.no_key (Demo.state Demo.alice_session) _
           (HTTPException 403 (Some "No permission"))).
  - reflexivity.
  - discriminate.
Defined.

Lemma get_api_keys_lists_every_role_witness :
  ∃ listed,
    fst (get_api_keys Demo.env Demo.no_key
           (snd (post_api_key Demo.env Demo.new_key Demo.no_key
                   (Demo.state Demo.alice_session))))
    = Return listed
    ∧ List.concat (rest_models.ApiKey.roles <$> listed)
      = rest_models.BaseApiKey.roles Demo.new_key.
Proof.
  assert (∃ listed,
            fst (get_api_keys Demo.env Demo.no_key
                   (snd (post_api_key Demo.env Demo.new_key Demo.no_key
                           (Demo.state Demo.alice_session))))
            = Return listed) as [listed Hl]
    by (eexists; vm_compute; reflexivity).
  destruct (get_api_keys_lists_every_role Demo.env Demo.no_key _ listed Hl)
    as (u & Hu & H & _).
  exists listed. split; [exact Hl|].
  rewrite H. vm_compute in Hu. injection Hu as <-.
  vm_compute. reflexivity.
Defined.

(** ** Dependencies and batches *)

Section more_dependency_properties.

Context (env : Env).

(** X16: the dependency that resolves the package of a request changes
    nothing and fails with 404 only; the package it returns has the name
    asked for and belongs to the channel asked for. *)
Theorem get_package_or_fail_returns_requested
    (channel_name package_name : string) (st : State) :
  snd (get_package_or_fail channel_name package_name st) = st
  ∧ match fst (get_package_or_fail channel_name package_name st) with
    | Return package =>
        db_models.Package.name package = package_name
        ∧ db_models.Channel.name (db_models.Package.channel package)
          = channel_name
    | HTTPException c _ => c = HTTP_404_NOT_FOUND
    | Raised _ => False
    end.
Proof.
  split; [by rewrite get_package_or_fail_state|].
  unfold get_package_or_fail, get_channel_or_fail, mbind, M_bind.
  rewrite dao_state by done. simpl.
  destruct (Dao.find_channel _ _) as [c|] eqn:Hc; [|done]. simpl.
  pose proof (find_channel_name _ _ _ Hc) as Hn. rewrite Hn.
  destruct (Dao.find_package _ _ _) as [p|] eqn:Hp; [|done]. simpl.
  apply find_some in Hp as [_ Hp].
  apply andb_true_iff in Hp as [H1 H2].
  by apply bool_decide_eq_true in H1, H2.
Qed.

(** X17: a batch stops at its first file that fails: the request ends with
    the failure of that file, in the state that file left, and the files
    after it make no difference. *)
Theorem post_file_stops_at_first_failure channel_name package_name auth
    earlier f st package st' o st'' :
  reaches env channel_name package_name auth earlier st package st' →
  post_file_body env package auth (channel_dir_of package) f st' = (o, st'') →
  (∀ a, o ≠ Return a) →
  ∀ later,
    post_file env channel_name package_name (earlier ++ f :: later) auth st
      = post_file env channel_name package_name (earlier ++ [f]) auth st
    ∧ post_file env channel_name package_name (earlier ++ [f]) auth st
      = (o, st'').
Proof.
  intros Hr Hb Ho later.
  rewrite (post_file_aborts env _ _ _ _ _ later _ _ _ _ _ Hr Hb Ho).
  by rewrite (post_file_aborts env _ _ _ _ _ [] _ _ _ _ _ Hr Hb Ho).
Qed.

End more_dependency_properties.

Lemma post_file_stops_at_first_failure_witness :
  post_file Demo.env "conda-forge" "numpy"
    [Demo.first_upload; Demo.misnamed_upload; Demo.corrupt_upload]
    Demo.no_key (Demo.state Demo.alice_session)
  = post_file Demo.env "conda-forge" "numpy"
      [Demo.first_upload; Demo.misnamed_upload]
      Demo.no_key (Demo.state Demo.alice_session).
Proof.
  set (st' := snd (for_each
                     (post_file_body Demo.env Demo.numpy Demo.no_key
                        (channel_dir_of Demo.numpy))
                     [Demo.first_upload] (Demo.state Demo.alice_session))).
  assert (Hr : reaches Demo.env "conda-forge" "numpy" Demo.no_key
                 [Demo.first_upload] (Demo.state Demo.alice_session)
                 Demo.numpy st').
  { exists (Demo.state Demo.alice_session), (Demo.state Demo.alice_session).
    repeat split; vm_compute; reflexivity. }
  assert (Hb : post_file_body Demo.env Demo.numpy Demo.no_key
                 (channel_dir_of Demo.numpy) Demo.misnamed_upload st'
               = (HTTPException HTTP_400_BAD_REQUEST None, st'))
    by (vm_compute; reflexivity).
  assert (Ho : ∀ a : unit, HTTPException HTTP_400_BAD_REQUEST None ≠ Return a)
    by discriminate.
  exact (proj1 (post_file_stops_at_first_failure Demo.env "conda-forge"
                  "numpy" Demo.no_key [Demo.first_upload]
                  Demo.misnamed_upload (Demo.state Demo.alice_session)
                  Demo.numpy st' _ st' Hr Hb Ho [Demo.corrupt_upload])).
Defined.
